(** * Strategy evaluation and consensus engine

    A shallow embedding of [src/strategies/trading_strategies.py] and
    [src/strategies/strategy_manager.py].

    Conventions of the embedding.
    - Python [float]/[numpy.float64] values are idealised as rationals
      ([Q]); the one non-finite value the code can produce from finite
      inputs, the [nan] that [np.mean] returns on an empty sequence, is
      [None] in [npfloat := option Q].  Every comparison with [nan] is
      [False], as in IEEE arithmetic.
    - Python [int] parameters (window sizes, periods) are [Z]; indexing and
      slicing with negative numbers follow Python's rules.
    - A Python [dict] with string keys that is built and returned by the
      code is an insertion-ordered association list; the manager's
      registry, which is only looked up, inserted into and deleted from,
      is a [gmap string strategy].
    - A raised exception is the [Raise] case of [result].
    - [datetime.now().isoformat()] is a reading of an explicit clock.
    - Calls to [logger] have no effect on the values computed and are not
      modelled. *)

From Stdlib Require Import ZArith QArith Qminmax Qabs Qround Lqa String List
  DecimalString.
From stdpp Require Import gmap strings list fin_maps.

Local Open Scope string_scope.
Local Open Scope list_scope.
Local Open Scope Z_scope.

(** ** Python values *)

Definition npfloat : Type := option Q.

Local Set Warnings "-register-all".

Inductive pyval : Type :=
| VStr (s : string)
| VInt (z : Z)
| VNum (x : npfloat)
| VDict (d : list (string * pyval)).

Definition dict : Type := list (string * pyval).

(** [d.get(k)] *)
Fixpoint dict_get {V : Type} (k : string) (d : list (string * V)) : option V :=
  match d with
  | [] => None
  | (k', v) :: d' => if String.eqb k k' then Some v else dict_get k d'
  end.

(** [d[k] = v]: replaces the value in place when the key is present,
    appends the key otherwise. *)
Fixpoint dict_set {V : Type} (k : string) (v : V) (d : list (string * V))
  : list (string * V) :=
  match d with
  | [] => [(k, v)]
  | (k', v') :: d' =>
      if String.eqb k k' then (k, v) :: d' else (k', v') :: dict_set k v d'
  end.

(** [v == s] for a string literal [s] *)
Definition val_is_str (v : option pyval) (s : string) : bool :=
  match v with
  | Some (VStr t) => String.eqb t s
  | _ => false
  end.

(** ** Exceptions *)

Inductive exn : Type :=
| IndexError
| KeyError
| NotImplementedError.

Inductive result (A : Type) : Type :=
| Ok (a : A)
| Raise (e : exn).
Arguments Ok {A} a.
Arguments Raise {A} e.

Definition bind {A B : Type} (r : result A) (k : A -> result B) : result B :=
  match r with
  | Ok a => k a
  | Raise e => Raise e
  end.

Notation "x <- r ;; k" := (bind r (fun x => k))
  (at level 100, r at next level, right associativity).

(** ** Sequences: indexing and slicing *)

Section Sequences.
Context {A : Type}.

Definition len (l : list A) : Z := Z.of_nat (length l).

(** [l[i]], raising [IndexError] out of range. *)
Definition py_index (l : list A) (i : Z) : result A :=
  let j := if i <? 0 then i + len l else i in
  if j <? 0 then Raise IndexError
  else match nth_error l (Z.to_nat j) with
       | Some x => Ok x
       | None => Raise IndexError
       end.

(** A slice bound is moved into [0 .. len l]. *)
Definition clamp (l : list A) (i : Z) : Z :=
  let j := if i <? 0 then i + len l else i in
  Z.max 0 (Z.min j (len l)).

(** [l[start:stop]] with step 1; [None] is an omitted bound. *)
Definition py_slice (l : list A) (start stop : option Z) : list A :=
  let lo := match start with Some i => clamp l i | None => 0 end in
  let hi := match stop with Some i => clamp l i | None => len l end in
  firstn (Z.to_nat (hi - lo)) (skipn (Z.to_nat lo) l).
End Sequences.

(** [range(a, b)] *)
Definition py_range (a b : Z) : list Z :=
  map (fun k => a + Z.of_nat k) (seq 0 (Z.to_nat (b - a))).

(** ** Arithmetic on [numpy] floats *)

Local Open Scope Q_scope.

Definition Qsum (l : list Q) : Q := fold_right Qplus 0 l.

(** [np.mean]: [nan] on an empty sequence. *)
Definition np_mean (l : list Q) : npfloat :=
  match l with
  | [] => None
  | _ => Some (Qsum l / inject_Z (len l))
  end.

Definition Qlt_bool (x y : Q) : bool := negb (Qle_bool y x).

Definition fcmp (c : Q -> Q -> bool) (x y : npfloat) : bool :=
  match x, y with
  | Some a, Some b => c a b
  | _, _ => false
  end.

Definition flt : npfloat -> npfloat -> bool := fcmp Qlt_bool.
Definition fle : npfloat -> npfloat -> bool := fcmp Qle_bool.
Definition fgt (x y : npfloat) : bool := flt y x.
Definition fge (x y : npfloat) : bool := fle y x.
Definition feq : npfloat -> npfloat -> bool := fcmp Qeq_bool.

Definition fop (f : Q -> Q -> Q) (x y : npfloat) : npfloat :=
  match x, y with
  | Some a, Some b => Some (f a b)
  | _, _ => None
  end.

(** [np.diff] *)
Fixpoint np_diff (l : list Q) : list Q :=
  match l with
  | a :: (b :: _) as t => (b - a) :: np_diff t
  | _ => []
  end.


(** ** Formatting *)

(** [f"{n}"] for a non-negative integer *)
Definition fmt_int (n : Z) : string :=
  NilZero.string_of_uint (N.to_uint (Z.to_N n)).

(** [f"{x:.2f}"]: two decimals, ties to even. *)
Definition fmt2 (x : npfloat) : string :=
  match x with
  | None => "nan"
  | Some q =>
      let scaled := Qabs q * 100 in
      let fl := Qfloor scaled in
      let frac := scaled - inject_Z fl in
      let n := if Qlt_bool frac (1 # 2) then fl
               else if Qlt_bool (1 # 2) frac then (fl + 1)%Z
               else if Z.even fl then fl else (fl + 1)%Z in
      let cents := (n mod 100)%Z in
      ((if Qlt_bool q 0 then "-" else "")
       ++ fmt_int (n / 100) ++ "."
       ++ (if (cents <? 10)%Z then "0" else "") ++ fmt_int cents)%string
  end.

(** ** Market data

    The snapshot is a [dict] whose entries used by the strategies are
    sequences of numbers. *)

Definition snapshot : Type := list (string * list Q).

(** [market_data.get(k, [])] *)
Definition md_get (k : string) (market_data : snapshot) : list Q :=
  match dict_get k market_data with
  | Some l => l
  | None => []
  end.

(** ** Strategies *)

(** The class of a strategy object together with the attributes its
    constructor stores. *)
Inductive variant : Type :=
| Abstract
| MA (short_window long_window : Z)
| RSI (period oversold overbought : Z)
| VB (lookback_period : Z) (volatility_factor : Q).

Record strategy : Type := mkStrategy {
  name : string;
  config : dict;
  active : bool;
  last_signal : option dict;
  kind : variant
}.

(** [config or {}] *)
Definition config_or_empty (config : option dict) : dict :=
  match config with
  | Some c => c
  | None => []
  end.

(** [TradingStrategy.__init__] *)
Definition TradingStrategy_init (name : string) (config : option dict)
    (k : variant) : strategy :=
  {| name := name;
     config := config_or_empty config;
     active := false;
     last_signal := None;
     kind := k |}.

Definition TradingStrategy (name : string) (config : option dict) : strategy :=
  TradingStrategy_init name config Abstract.

Definition MovingAverageCrossover (short_window long_window : Z)
    (config : option dict) : strategy :=
  TradingStrategy_init "MA Crossover" config (MA short_window long_window).

Definition RSIStrategy (period oversold overbought : Z)
    (config : option dict) : strategy :=
  TradingStrategy_init "RSI Strategy" config (RSI period oversold overbought).

Definition VolatilityBreakout (lookback_period : Z) (volatility_factor : Q)
    (config : option dict) : strategy :=
  TradingStrategy_init "Volatility Breakout" config
    (VB lookback_period volatility_factor).

Definition activate (s : strategy) : strategy :=
  {| name := name s; config := config s; active := true;
     last_signal := last_signal s; kind := kind s |}.

Definition deactivate (s : strategy) : strategy :=
  {| name := name s; config := config s; active := false;
     last_signal := last_signal s; kind := kind s |}.

Definition set_last_signal (s : strategy) (d : dict) : strategy :=
  {| name := name s; config := config s; active := active s;
     last_signal := Some d; kind := kind s |}.

Definition get_signal (s : strategy) : option dict := last_signal s.

Definition insufficient_data : dict :=
  [("signal", VStr "HOLD"); ("reason", VStr "Insufficient data")].

(** *** MovingAverageCrossover *)

(** [prices[-w:]] *)
Definition window (w : Z) (prices : list Q) : list Q :=
  py_slice prices (Some (- w)%Z) None.

(** [prices[-w-1:-1]] *)
Definition prev_window (w : Z) (prices : list Q) : list Q :=
  py_slice prices (Some (- w - 1)%Z) (Some (-1)%Z).

(** [np.mean(prices[-w:])], the current moving average over [w] *)
Definition moving_average (w : Z) (prices : list Q) : npfloat :=
  np_mean (window w prices).

(** [np.mean(prices[-w-1:-1])], the previous value of that average *)
Definition prev_moving_average (w : Z) (prices : list Q) : npfloat :=
  np_mean (prev_window w prices).

Definition ma_analyze (now : string) (short_window long_window : Z)
    (market_data : snapshot) : dict :=
  let prices := md_get "prices" market_data in
  if (len prices <? long_window)%Z then insufficient_data
  else
    let short_ma := moving_average short_window prices in
    let long_ma := moving_average long_window prices in
    let prev_short_ma := prev_moving_average short_window prices in
    let prev_long_ma := prev_moving_average long_window prices in
    let '(signal, reason) :=
      if fgt short_ma long_ma && fle prev_short_ma prev_long_ma then
        ("BUY", "Short MA (" ++ fmt2 short_ma ++ ") crossed above Long MA ("
                ++ fmt2 long_ma ++ ")")%string
      else if flt short_ma long_ma && fge prev_short_ma prev_long_ma then
        ("SELL", "Short MA (" ++ fmt2 short_ma ++ ") crossed below Long MA ("
                 ++ fmt2 long_ma ++ ")")%string
      else ("HOLD", "No crossover detected") in
    [("signal", VStr signal); ("reason", VStr reason);
     ("short_ma", VNum short_ma); ("long_ma", VNum long_ma);
     ("timestamp", VStr now)].

(** *** RSIStrategy *)

(** Both divisions are by a number that is not zero: [avg_loss] has
    just been tested, and [rs] is not negative. *)
Definition calculate_rsi (period : Z) (prices : list Q) : npfloat :=
  if (len prices <=? period)%Z then Some 50
  else
    let deltas := np_diff prices in
    let gains := map (fun d => Qmax d 0) deltas in
    let losses := map (fun d => - Qmin d 0) deltas in
    let avg_gain := np_mean (py_slice gains (Some (- period)%Z) None) in
    let avg_loss := np_mean (py_slice losses (Some (- period)%Z) None) in
    if feq avg_loss (Some 0) then Some 100
    else
      let rs := fop Qdiv avg_gain avg_loss in
      fop Qminus (Some 100) (fop Qdiv (Some 100) (fop Qplus (Some 1) rs)).

Definition rsi_analyze (now : string) (period oversold overbought : Z)
    (market_data : snapshot) : dict :=
  let prices := md_get "prices" market_data in
  if (len prices <=? period)%Z then insufficient_data
  else
    let current_rsi := calculate_rsi period prices in
    let prev_rsi := calculate_rsi period (py_slice prices None (Some (-1)%Z)) in
    let '(signal, reason) :=
      if flt current_rsi (Some (inject_Z oversold))
         && fge prev_rsi (Some (inject_Z oversold)) then
        ("BUY", "RSI (" ++ fmt2 current_rsi ++ ") entered oversold territory")%string
      else if fgt current_rsi (Some (inject_Z overbought))
              && fle prev_rsi (Some (inject_Z overbought)) then
        ("SELL", "RSI (" ++ fmt2 current_rsi ++ ") entered overbought territory")%string
      else ("HOLD", "RSI (" ++ fmt2 current_rsi ++ ") not at extreme levels")%string in
    [("signal", VStr signal); ("reason", VStr reason);
     ("rsi", VNum current_rsi); ("timestamp", VStr now)].

(** *** VolatilityBreakout *)

(** A [for] loop that appends one value per iteration and stops at the
    first exception. *)
Fixpoint for_each {A B : Type} (f : A -> result B) (l : list A)
  : result (list B) :=
  match l with
  | [] => Ok []
  | a :: l' => b <- f a;; bs <- for_each f l';; Ok (b :: bs)
  end.

(** The body of the true-range loop at offset [i].  The source reads
    [highs[-(i+1)]], [lows[-(i+1)]] and [closes[-(i+2)]], the first two
    twice; a repeated read returns what the first one did. *)
Definition true_range (highs lows closes : list Q) (i : Z) : result Q :=
  h <- py_index highs (- (i + 1))%Z;;
  l <- py_index lows (- (i + 1))%Z;;
  c <- py_index closes (- (i + 2))%Z;;
  Ok (Qmax (Qmax (h - l) (Qabs (h - c))) (Qabs (l - c))).

Definition vb_analyze (now : string) (lookback_period : Z)
    (volatility_factor : Q) (market_data : snapshot) : result dict :=
  let highs := md_get "highs" market_data in
  let lows := md_get "lows" market_data in
  let closes := md_get "prices" market_data in
  if (len closes <? lookback_period)%Z then Ok insufficient_data
  else
    ranges <- for_each (true_range highs lows closes)
                (py_range 1 (Z.min lookback_period (len highs)));;
    let atr := match ranges with [] => Some 0 | _ => np_mean ranges end in
    current_price <- py_index closes (-1)%Z;;
    previous_close <- py_index closes (-2)%Z;;
    let band := fop Qmult atr (Some volatility_factor) in
    let upper_band := fop Qplus (Some previous_close) band in
    let lower_band := fop Qminus (Some previous_close) band in
    let '(signal, reason) :=
      if fgt (Some current_price) upper_band then
        ("BUY", "Price (" ++ fmt2 (Some current_price)
                ++ ") broke above upper band (" ++ fmt2 upper_band ++ ")")%string
      else if flt (Some current_price) lower_band then
        ("SELL", "Price (" ++ fmt2 (Some current_price)
                 ++ ") broke below lower band (" ++ fmt2 lower_band ++ ")")%string
      else ("HOLD", "Price (" ++ fmt2 (Some current_price)
                    ++ ") within volatility bands")%string in
    Ok [("signal", VStr signal); ("reason", VStr reason);
        ("atr", VNum atr); ("upper_band", VNum upper_band);
        ("lower_band", VNum lower_band); ("timestamp", VStr now)].

(** *** The [analyze] method

    The result is the returned signal together with the strategy object
    after the call ([last_signal] is overwritten); when the call raises,
    the object has not been modified. *)
Definition analyze (now : string) (s : strategy) (market_data : snapshot)
  : result (dict * strategy) :=
  match kind s with
  | Abstract => Raise NotImplementedError
  | MA short_window long_window =>
      let d := ma_analyze now short_window long_window market_data in
      Ok (d, set_last_signal s d)
  | RSI period oversold overbought =>
      let d := rsi_analyze now period oversold overbought market_data in
      Ok (d, set_last_signal s d)
  | VB lookback_period volatility_factor =>
      d <- vb_analyze now lookback_period volatility_factor market_data;;
      Ok (d, set_last_signal s d)
  end.

(** ** The strategy manager *)

Record manager : Type := mkManager {
  strategies : gmap string strategy;
  active_strategies : list string;
  market_data : snapshot;
  last_update : option string
}.

(** [StrategyManager.__init__] *)
Definition StrategyManager : manager :=
  {| strategies := ∅; active_strategies := []; market_data := [];
     last_update := None |}.

(** [l.remove(x)]: drops the first occurrence.  Both callers test
    [x in l] first, so the [ValueError] of an absent [x] cannot occur. *)
Fixpoint list_remove (x : string) (l : list string) : list string :=
  match l with
  | [] => []
  | y :: l' => if String.eqb x y then l' else y :: list_remove x l'
  end.

Definition add_strategy (s : strategy) (m : manager) : manager :=
  {| strategies := <[name s := s]> (strategies m);
     active_strategies := active_strategies m;
     market_data := market_data m;
     last_update := last_update m |}.

Definition remove_strategy (strategy_name : string) (m : manager)
  : bool * manager :=
  match strategies m !! strategy_name with
  | Some _ =>
      let active' :=
        if decide (strategy_name ∈ active_strategies m)
        then list_remove strategy_name (active_strategies m)
        else active_strategies m in
      (true, {| strategies := delete strategy_name (strategies m);
                active_strategies := active';
                market_data := market_data m;
                last_update := last_update m |})
  | None => (false, m)
  end.

Definition activate_strategy (strategy_name : string) (m : manager)
  : bool * manager :=
  match strategies m !! strategy_name with
  | None => (false, m)
  | Some s =>
      if decide (strategy_name ∈ active_strategies m) then (true, m)
      else
        (true, {| strategies := <[strategy_name := activate s]> (strategies m);
                  active_strategies := active_strategies m ++ [strategy_name];
                  market_data := market_data m;
                  last_update := last_update m |})
  end.

Definition deactivate_strategy (strategy_name : string) (m : manager)
  : bool * manager :=
  match strategies m !! strategy_name with
  | None => (false, m)
  | Some s =>
      if decide (strategy_name ∈ active_strategies m) then
        (true, {| strategies := <[strategy_name := deactivate s]> (strategies m);
                  active_strategies :=
                    list_remove strategy_name (active_strategies m);
                  market_data := market_data m;
                  last_update := last_update m |})
      else (true, m)
  end.

Definition update_market_data (now : string) (md : snapshot) (m : manager)
  : manager :=
  {| strategies := strategies m;
     active_strategies := active_strategies m;
     market_data := md;
     last_update := Some now |}.

(** The loop of [run_strategies].  [clock k] is the time read while the
    [k]-th name of the active list is evaluated.  The lookup
    [self.strategies[strategy_name]] stands before the [try] and its
    [KeyError] leaves the function; whatever [analyze] raises is caught
    and the name skipped.  The entry of [results] is stored before the
    log line reads [signal['signal']], so a [KeyError] there, caught as
    well, leaves the entry in place. *)
Fixpoint run_loop (clock : nat -> string) (md : snapshot) (k : nat)
    (names : list string) (reg : gmap string strategy)
    (results : list (string * dict))
  : result (list (string * dict) * gmap string strategy) :=
  match names with
  | [] => Ok (results, reg)
  | strategy_name :: names' =>
      match reg !! strategy_name with
      | None => Raise KeyError
      | Some s =>
          match analyze (clock k) s md with
          | Ok (signal, s') =>
              run_loop clock md (S k) names' (<[strategy_name := s']> reg)
                (dict_set strategy_name signal results)
          | Raise _ => run_loop clock md (S k) names' reg results
          end
      end
  end.

Definition run_strategies (clock : nat -> string) (m : manager)
  : result (list (string * dict) * manager) :=
  match market_data m with
  | [] => Ok ([], m)
  | _ =>
      out <- run_loop clock (market_data m) 0
               (active_strategies m) (strategies m) [];;
      Ok (out.1, {| strategies := out.2;
                    active_strategies := active_strategies m;
                    market_data := market_data m;
                    last_update := last_update m |})
  end.

(** [sum(1 for s in signals.values() if s.get('signal') == what)] *)
Definition count_signal (what : string) (signals : list (string * dict)) : Z :=
  len (List.filter (fun s => val_is_str (dict_get "signal" s) what)
         (map snd signals)).

(** The part of [get_consensus_signal] after the call of
    [run_strategies]. *)
Definition consensus (now : string) (signals : list (string * dict)) : dict :=
  match signals with
  | [] => [("signal", VStr "HOLD"); ("reason", VStr "No active strategies")]
  | _ =>
      let buy_count := count_signal "BUY" signals in
      let sell_count := count_signal "SELL" signals in
      let hold_count := count_signal "HOLD" signals in
      let '(signal, reason) :=
        if (buy_count >? sell_count) && (buy_count >? hold_count) then
          ("BUY", "Majority consensus: " ++ fmt_int buy_count ++ "/"
                  ++ fmt_int (len signals) ++ " strategies recommend BUY")%string
        else if (sell_count >? buy_count) && (sell_count >? hold_count) then
          ("SELL", "Majority consensus: " ++ fmt_int sell_count ++ "/"
                   ++ fmt_int (len signals) ++ " strategies recommend SELL")%string
        else
          ("HOLD", "No clear consensus or majority HOLD: " ++ fmt_int hold_count
                   ++ "/" ++ fmt_int (len signals) ++ " strategies")%string in
      [("signal", VStr signal); ("reason", VStr reason);
       ("buy_count", VInt buy_count); ("sell_count", VInt sell_count);
       ("hold_count", VInt hold_count); ("timestamp", VStr now);
       ("details", VDict (map (fun kd => (fst kd, VDict (snd kd))) signals))]
  end.

(** The clock is read once more, after the strategies have run. *)
Definition get_consensus_signal (clock : nat -> string) (m : manager)
  : result (dict * manager) :=
  out <- run_strategies clock m;;
  Ok (consensus (clock (length (active_strategies m))) out.1, out.2).

Definition create_default_strategies (m : manager) : manager :=
  let m := add_strategy (MovingAverageCrossover 10 30 None) m in
  let m := add_strategy
             (MovingAverageCrossover 20 50
                (Some [("name", VStr "MA Crossover Medium")])) m in
  let m := add_strategy (RSIStrategy 14 30 70 None) m in
  let m := add_strategy
             (RSIStrategy 7 25 75 (Some [("name", VStr "RSI Aggressive")])) m in
  add_strategy (VolatilityBreakout 20 (3 # 2) None) m.

(** The states a manager can be in: those its own operations lead to
    from a fresh manager. *)
Inductive reachable : manager -> Prop :=
| reach_init : reachable StrategyManager
| reach_add s m : reachable m -> reachable (add_strategy s m)
| reach_remove n m : reachable m -> reachable (remove_strategy n m).2
| reach_activate n m : reachable m -> reachable (activate_strategy n m).2
| reach_deactivate n m : reachable m -> reachable (deactivate_strategy n m).2
| reach_update now md m : reachable m -> reachable (update_market_data now md m)
| reach_run clock m r m' :
    reachable m -> run_strategies clock m = Ok (r, m') -> reachable m'
| reach_defaults m : reachable m -> reachable (create_default_strategies m).

(** What holds of every reachable state: no name is active twice, and
    every active name is registered. *)
Definition consistent (m : manager) : Prop :=
  NoDup (active_strategies m)
  /\ forall n, n ∈ active_strategies m -> is_Some (strategies m !! n).

(** ** Vocabulary of the properties *)

Local Close Scope Q_scope.

(** What one name of the active list contributes to the outcome of
    [run_strategies]: the signal and the updated object when [analyze]
    returns, no entry and an untouched object when it raises. *)
Definition outcome_at (now : string) (s : strategy) (md : snapshot)
    (entry : option dict) (stored : option strategy) : Prop :=
  match analyze now s md with
  | Ok (sig, s') => entry = Some sig /\ stored = Some s'
  | Raise _ => entry = None /\ stored = Some s
  end.

(** A sequence [W] of [w] prices that ends at the second-to-last element
    of [prices]. *)
Definition ends_before_last (w : Z) (prices W : list Q) : Prop :=
  len W = w /\ exists pre x, prices = pre ++ W ++ [x].

(** A price series that never falls. *)
Fixpoint nondecreasing (l : list Q) : Prop :=
  match l with
  | a :: (b :: _) as t => (a <= b)%Q /\ nondecreasing t
  | _ => True
  end.

(** ** Concrete inputs *)

Definition demo_clock (k : nat) : string := fmt_int (Z.of_nat k).

Definition two_bars : snapshot :=
  [("prices", [1; 2]%Q); ("highs", [1; 2]%Q); ("lows", [1; 2]%Q)].

(** Market data set, nothing registered. *)
Definition idle_manager : manager :=
  update_market_data "t0" two_bars StrategyManager.

(** Three active strategies on two bars: an instance of the base class,
    a volatility breakout at its boundary, and a crossover. *)
Definition demo_manager : manager :=
  (activate_strategy "MA Crossover"
     (activate_strategy "Volatility Breakout"
        (activate_strategy "Custom"
           (add_strategy (VolatilityBreakout 2 (3 # 2)%Q None)
              (add_strategy (MovingAverageCrossover 1 2 None)
                 (add_strategy (TradingStrategy "Custom" None)
                    idle_manager)))).2).2).2.

(** A crossover that overwrites the active one of [demo_manager]. *)
Definition fresh_crossover : strategy :=
  MovingAverageCrossover 1 2 (Some [("name", VStr "fresh")]).

(** What [demo_manager] yields on [two_bars]: the base class and the
    breakout raise, the crossover answers. *)
Definition demo_signals : list (string * dict) :=
  [("MA Crossover",
    [("signal", VStr "BUY");
     ("reason", VStr "Short MA (2.00) crossed above Long MA (1.50)");
     ("short_ma", VNum (Some 2%Q));
     ("long_ma", VNum (Some (3 # 2)%Q));
     ("timestamp", VStr "2")])].

Definition demo_manager_after : manager :=
  {| strategies :=
       alter (fun s => set_last_signal s
                         (default [] (dict_get "MA Crossover" demo_signals)))
         "MA Crossover" (strategies demo_manager);
     active_strategies := active_strategies demo_manager;
     market_data := market_data demo_manager;
     last_update := last_update demo_manager |}.

(** ** Market data for the strategies

    [SolanaMarketData.get_market_data_for_strategy] of
    [src/market_data/solana_market_data.py].  Its two fetches are the
    arguments [historical_data] and [current_price]; a failed fetch is the
    empty dict. *)

(** An entry of the dict handed to the strategies: a sequence of numbers
    or a single value. *)
Inductive md_entry : Type :=
| Seq (l : list Q)
| Scalar (v : pyval).

(** The sequences of such a dict, which is what [snapshot] holds. *)
Fixpoint sequences_of (d : list (string * md_entry)) : snapshot :=
  match d with
  | [] => []
  | (k, Seq l) :: d' => (k, l) :: sequences_of d'
  | (_, Scalar _) :: d' => sequences_of d'
  end.

(** [max(window)] and [min(window)]: the first of the largest (smallest)
    elements; [None] stands for the [ValueError] on an empty sequence,
    which the caller excludes by testing [window] first. *)
Definition py_max (l : list Q) : option Q :=
  match l with
  | [] => None
  | x :: t => Some (fold_left (fun acc y => if Qlt_bool acc y then y else acc) t x)
  end.

Definition py_min (l : list Q) : option Q :=
  match l with
  | [] => None
  | x :: t => Some (fold_left (fun acc y => if Qlt_bool y acc then y else acc) t x)
  end.

(** One turn of the loop that fills [highs] and [lows]. *)
Definition high_low_at (prices : list Q) (window_size i : Z) : result (Q * Q) :=
  let start_idx := Z.max 0 (i - window_size) in
  let window := py_slice prices (Some start_idx) (Some (i + 1)) in
  h <- match py_max window with
       | Some h => Ok h
       | None => py_index prices i
       end;;
  l <- match py_min window with
       | Some l => Ok l
       | None => py_index prices i
       end;;
  Ok (h, l).

Definition get_market_data_for_strategy (historical_data : snapshot)
    (current_price : dict) (token_id vs_currency : string)
  : result (list (string * md_entry)) :=
  let prices := md_get "prices" historical_data in
  let timestamps := md_get "timestamps" historical_data in
  let volumes := md_get "volumes" historical_data in
  let window_size := Z.min 5 (len prices) in
  bars <- for_each (high_low_at prices window_size) (py_range 0 (len prices));;
  Ok [("prices", Seq prices);
      ("highs", Seq (map fst bars));
      ("lows", Seq (map snd bars));
      ("timestamps", Seq timestamps);
      ("volumes", Seq volumes);
      ("current_price",
       Scalar (default (VInt 0) (dict_get "price" current_price)));
      ("change_24h",
       Scalar (default (VInt 0) (dict_get "change_24h" current_price)));
      ("token_id", Scalar (VStr token_id));
      ("vs_currency", Scalar (VStr vs_currency))].

(** ** More vocabulary *)


(** Two strategy objects that differ at most in [last_signal]. *)
Definition same_but_signal (s s' : strategy) : Prop :=
  name s' = name s /\ config s' = config s /\ active s' = active s
  /\ kind s' = kind s.

(** The strategy has too little history in [md] to compute anything. *)
Definition short_of_data (s : strategy) (md : snapshot) : Prop :=
  match kind s with
  | Abstract => False
  | MA _ long_window => len (md_get "prices" md) < long_window
  | RSI period _ _ => len (md_get "prices" md) <= period
  | VB lookback_period _ => len (md_get "prices" md) < lookback_period
  end.

(** The signal of a strategy's answer is one of the three kinds. *)
Definition three_kinds (d : dict) : Prop :=
  exists k, dict_get "signal" d = Some (VStr k)
            /\ (k = "BUY" \/ k = "SELL" \/ k = "HOLD").

(** ** More concrete inputs *)

Definition three_bars : snapshot :=
  [("prices", [1; 2; 5]%Q); ("highs", [1; 2; 5]%Q); ("lows", [1; 2; 5]%Q)].

(** The answer of a breakout with lookback 2 and factor 1.5 on
    [three_bars]. *)
Definition three_bars_breakout : dict :=
  [("signal", VStr "BUY");
   ("reason", VStr "Price (5.00) broke above upper band (3.50)");
   ("atr", VNum (Some 1%Q));
   ("upper_band", VNum (Some (7 # 2)%Q));
   ("lower_band", VNum (Some (1 # 2)%Q));
   ("timestamp", VStr "t")].

Definition quiet_bars : snapshot :=
  [("prices", [1; 2; 2]%Q); ("highs", [1; 2; 2]%Q); ("lows", [1; 2; 2]%Q)].

(** The answer of a crossover with windows 1 and 2 on the prices 1, 3. *)
Definition first_cross : dict :=
  [("signal", VStr "BUY");
   ("reason", VStr "Short MA (3.00) crossed above Long MA (2.00)");
   ("short_ma", VNum (Some 3%Q));
   ("long_ma", VNum (Some (4 # 2)%Q));
   ("timestamp", VStr "t")].

(** An active strategy, no market data. *)
Definition dataless_manager : manager :=
  (activate_strategy "MA Crossover"
     (add_strategy (MovingAverageCrossover 1 2 None) StrategyManager)).2.

(** The default strategies, all active, on two bars. *)
Definition defaults_manager : manager :=
  (activate_strategy "Volatility Breakout"
     (activate_strategy "RSI Strategy"
        (activate_strategy "MA Crossover"
           (create_default_strategies idle_manager)).2).2).2.

(** What [get_market_data_for_strategy] builds from the prices 3, 1, 2, 5
    when the price fetch failed. *)
Definition built_market_data : list (string * md_entry) :=
  [("prices", Seq [3; 1; 2; 5]%Q);
   ("highs", Seq [3; 3; 3; 5]%Q);
   ("lows", Seq [3; 1; 1; 1]%Q);
   ("timestamps", Seq []);
   ("volumes", Seq []);
   ("current_price", Scalar (VInt 0));
   ("change_24h", Scalar (VInt 0));
   ("token_id", Scalar (VStr "solana"));
   ("vs_currency", Scalar (VStr "usd"))].

(** ** The definitions at work *)

Example py_slice_last2 : py_slice [1; 2; 3; 4] (Some (-2)%Z) None = [3; 4].
Proof. reflexivity. Qed.
Example py_slice_prev2 : py_slice [1; 2; 3; 4] (Some (-3)%Z) (Some (-1)%Z) = [2; 3].
Proof. reflexivity. Qed.
Example py_slice_clamped : py_slice [1; 2] (Some (-3)%Z) (Some (-1)%Z) = [1].
Proof. reflexivity. Qed.
Example py_slice_minus_zero : py_slice [1; 2] (Some (-0)%Z) None = [1; 2].
Proof. reflexivity. Qed.
Example py_index_back : py_index [1; 2; 3] (-3)%Z = Ok 1.
Proof. reflexivity. Qed.
Example py_index_out : py_index [1; 2; 3] (-4)%Z = Raise IndexError.
Proof. reflexivity. Qed.
Example py_range_1_4 : py_range 1 4 = [1; 2; 3]%Z.
Proof. reflexivity. Qed.
Example py_range_empty : py_range 1 0 = [].
Proof. reflexivity. Qed.
Example fmt2_round :
  fmt2 (Some (5 # 4)%Q) = "1.25" /\ fmt2 (Some (- (1 # 3))%Q) = "-0.33"
  /\ fmt2 (Some (201 # 200)%Q) = "1.00" /\ fmt2 (Some 110%Q) = "110.00"
  /\ fmt2 None = "nan".
Proof. repeat split; vm_compute; reflexivity. Qed.

(** * Properties *)

(** A test on integers whose outcome follows from the hypotheses by
    linear arithmetic: keep the branch taken. *)
Ltac test_holds t :=
  let E := fresh "E" in
  destruct t eqn:E;
  [|exfalso; first [apply Z.ltb_ge in E | apply Z.leb_gt in E]; lia].

Ltac test_fails t :=
  let E := fresh "E" in
  destruct t eqn:E;
  [exfalso; first [apply Z.ltb_lt in E | apply Z.leb_le in E]; lia|].

(** ** Dictionaries and lists *)

Section DictFacts.
Context {V : Type}.
Implicit Types (d : list (string * V)) (k : string) (v : V).

Lemma dict_get_set_eq k v d : dict_get k (dict_set k v d) = Some v.
Proof.
  induction d as [|[k' v'] d IH]; simpl.
  - by rewrite String.eqb_refl.
  - destruct (String.eqb_spec k k') as [->|Hne]; simpl.
    + by rewrite String.eqb_refl.
    + by apply String.eqb_neq in Hne as ->.
Qed.

Lemma dict_get_set_ne k k' v d :
  k ≠ k' -> dict_get k' (dict_set k v d) = dict_get k' d.
Proof.
  intros Hne. induction d as [|[k0 v0] d IH]; simpl.
  - destruct (String.eqb_spec k' k); congruence.
  - destruct (String.eqb_spec k k0) as [->|Hk]; simpl.
    + destruct (String.eqb_spec k' k0); congruence.
    + destruct (String.eqb_spec k' k0); congruence.
Qed.

Lemma dict_set_fresh k v d :
  dict_get k d = None -> dict_set k v d = d ++ [(k, v)].
Proof.
  induction d as [|[k' v'] d IH]; simpl; [done|].
  destruct (String.eqb_spec k k'); [done|].
  intros H. by rewrite IH.
Qed.

Lemma dict_get_app_fresh k d d' :
  dict_get k d = None -> dict_get k (d ++ d') = dict_get k d'.
Proof.
  induction d as [|[k' v'] d IH]; simpl; [done|].
  destruct (String.eqb_spec k k'); [done|]. apply IH.
Qed.
End DictFacts.

Lemma list_remove_subset x y l : y ∈ list_remove x l -> y ∈ l.
Proof.
  induction l as [|z l IH]; simpl; [done|].
  destruct (String.eqb_spec x z) as [->|Hne].
  - intros H. apply elem_of_cons. by right.
  - rewrite !elem_of_cons. intros [->|H]; [by left | right; by apply IH].
Qed.

Lemma list_remove_NoDup x l : NoDup l -> NoDup (list_remove x l).
Proof.
  induction 1 as [|z l Hz Hl IH]; simpl; [constructor|].
  destruct (String.eqb_spec x z); [done|].
  constructor; [|done]. intros H. apply Hz. by eapply list_remove_subset.
Qed.

Lemma list_remove_gone x l : NoDup l -> x ∉ list_remove x l.
Proof.
  induction 1 as [|z l Hz Hl IH]; simpl; [apply not_elem_of_nil|].
  destruct (String.eqb_spec x z) as [->|Hne]; [done|].
  rewrite elem_of_cons. intros [?|?]; [done | by apply IH].
Qed.

(** ** The registry and the active list stay consistent *)

Lemma run_loop_registered clock md names :
  forall k reg results res reg',
    run_loop clock md k names reg results = Ok (res, reg') ->
    forall n, is_Some (reg' !! n) <-> is_Some (reg !! n).
Proof.
  induction names as [|x names IH]; simpl; intros k reg results res reg' H n.
  - by inversion H.
  - destruct (reg !! x) as [s|] eqn:Hx; [|done].
    destruct (analyze (clock k) s md) as [[sig s']|e].
    + rewrite (IH _ _ _ _ _ H n).
      destruct (decide (x = n)) as [->|Hne].
      * rewrite lookup_insert_eq, Hx. split; eauto.
      * by rewrite lookup_insert_ne.
    + by apply (IH _ _ _ _ _ H).
Qed.

Lemma add_strategy_consistent s m : consistent m -> consistent (add_strategy s m).
Proof.
  intros [Hnd Hin]. split; simpl; [done|].
  intros n Hn. destruct (decide (name s = n)) as [->|Hne].
  - rewrite lookup_insert_eq. eauto.
  - rewrite lookup_insert_ne by done. by apply Hin.
Qed.

Lemma reachable_consistent m : reachable m -> consistent m.
Proof.
  induction 1 as [|s m _ IH|n m _ IH|n m _ IH|n m _ IH|now md m _ IH
                 |clock m r m' _ IH Hrun|m _ IH].
  - split; simpl; [constructor|]. intros n Hn. by apply elem_of_nil in Hn.
  - by apply add_strategy_consistent.
  - destruct IH as [Hnd Hin]. unfold remove_strategy.
    destruct (strategies m !! n) as [s|] eqn:Hs; simpl; [|done].
    destruct (decide (n ∈ active_strategies m)) as [Hact|Hact]; split; simpl.
    + by apply list_remove_NoDup.
    + intros x Hx. assert (x ≠ n).
      { intros ->. by apply (list_remove_gone n (active_strategies m)). }
      rewrite lookup_delete_ne by done.
      apply Hin. by eapply list_remove_subset.
    + done.
    + intros x Hx. assert (x ≠ n) by (intros ->; done).
      rewrite lookup_delete_ne by done. by apply Hin.
  - destruct IH as [Hnd Hin]. unfold activate_strategy.
    destruct (strategies m !! n) as [s|] eqn:Hs; simpl; [|done].
    destruct (decide (n ∈ active_strategies m)) as [Hact|Hact]; [done|].
    split; simpl.
    + apply NoDup_app. split_and!; [done| |apply NoDup_singleton].
      intros x Hx Hx'. apply list_elem_of_singleton in Hx' as ->. done.
    + intros x Hx. destruct (decide (n = x)) as [->|Hne].
      * rewrite lookup_insert_eq. eauto.
      * rewrite lookup_insert_ne by done. apply Hin.
        apply elem_of_app in Hx as [Hx|Hx]; [done|].
        apply list_elem_of_singleton in Hx. congruence.
  - destruct IH as [Hnd Hin]. unfold deactivate_strategy.
    destruct (strategies m !! n) as [s|] eqn:Hs; simpl; [|done].
    destruct (decide (n ∈ active_strategies m)) as [Hact|Hact]; [|done].
    split; simpl.
    + by apply list_remove_NoDup.
    + intros x Hx. destruct (decide (n = x)) as [->|Hne].
      * rewrite lookup_insert_eq. eauto.
      * rewrite lookup_insert_ne by done. apply Hin.
        by eapply list_remove_subset.
  - done.
  - destruct IH as [Hnd Hin]. unfold run_strategies in Hrun.
    destruct (market_data m) as [|e md] eqn:Hmd;
      [inversion Hrun; subst; by split|].
    destruct (run_loop clock (e :: md) 0 (active_strategies m) (strategies m) [])
      as [[res reg']|?] eqn:Hloop; simpl in Hrun; [|done].
    inversion Hrun; subst r m'; clear Hrun. split; simpl; [done|].
    intros n Hn. rewrite (run_loop_registered _ _ _ _ _ _ _ _ Hloop n).
    by apply Hin.
  - unfold create_default_strategies. by repeat apply add_strategy_consistent.
Qed.

(** ** Consensus *)

Lemma consensus_counts now signals :
  signals <> [] ->
  dict_get "buy_count" (consensus now signals)
    = Some (VInt (count_signal "BUY" signals))
  /\ dict_get "sell_count" (consensus now signals)
    = Some (VInt (count_signal "SELL" signals))
  /\ dict_get "hold_count" (consensus now signals)
    = Some (VInt (count_signal "HOLD" signals)).
Proof.
  destruct signals as [|x l]; [done|]. intros _. unfold consensus.
  destruct (_ && _); [|destruct (_ && _)]; done.
Qed.

Lemma consensus_signal now signals :
  signals <> [] ->
  let b := count_signal "BUY" signals in
  let s := count_signal "SELL" signals in
  let h := count_signal "HOLD" signals in
  dict_get "signal" (consensus now signals)
  = Some (VStr (if (b >? s) && (b >? h) then "BUY"
                else if (s >? b) && (s >? h) then "SELL" else "HOLD")).
Proof.
  destruct signals as [|x l]; [done|]. intros _ b s h. unfold consensus.
  fold b s h. destruct (_ && _); [|destruct (_ && _)]; done.
Qed.

(** C4.  When [run_strategies] hands a non-empty collection of signals to
    the consensus step, the result carries the three tallies of the
    collection, and its signal is BUY exactly when the BUY tally is
    strictly above both others, SELL exactly when the SELL tally is
    strictly above both others, and HOLD in every remaining case. *)
Theorem C4_majority_rule clock m signals m' :
  run_strategies clock m = Ok (signals, m') ->
  signals <> [] ->
  let b := count_signal "BUY" signals in
  let s := count_signal "SELL" signals in
  let h := count_signal "HOLD" signals in
  exists d sig,
    get_consensus_signal clock m = Ok (d, m')
    /\ dict_get "buy_count" d = Some (VInt b)
    /\ dict_get "sell_count" d = Some (VInt s)
    /\ dict_get "hold_count" d = Some (VInt h)
    /\ dict_get "signal" d = Some (VStr sig)
    /\ (sig = "BUY" <-> b > s /\ b > h)
    /\ (sig = "SELL" <-> s > b /\ s > h)
    /\ (sig = "HOLD" <-> ~ (b > s /\ b > h) /\ ~ (s > b /\ s > h)).
Proof.
  intros Hrun Hne b s h.
  destruct (consensus_counts (clock (length (active_strategies m))) signals Hne)
    as (Hb & Hs & Hh).
  pose proof (consensus_signal (clock (length (active_strategies m))) signals Hne)
    as Hsig. simpl in Hsig. fold b s h in Hsig.
  eexists _, _. unfold get_consensus_signal. rewrite Hrun. simpl.
  split; [reflexivity|]. split; [exact Hb|]. split; [exact Hs|].
  split; [exact Hh|]. split; [exact Hsig|].
  destruct (b >? s) eqn:Ebs; destruct (b >? h) eqn:Ebh;
    destruct (s >? b) eqn:Esb; destruct (s >? h) eqn:Esh; simpl;
    rewrite ?Z.gtb_ltb, ?Z.ltb_lt, ?Z.ltb_ge in *;
    (repeat split; intros; try discriminate; try lia).
Qed.

(** C2, as the code has it.  When the collection of signals is empty, the
    consensus result consists of the signal HOLD and the reason
    "No active strategies" and nothing else: it has no [buy_count],
    [sell_count] or [hold_count] field. *)
Theorem C2_empty_consensus clock m m' :
  run_strategies clock m = Ok ([], m') ->
  exists d,
    get_consensus_signal clock m = Ok (d, m')
    /\ d = [("signal", VStr "HOLD"); ("reason", VStr "No active strategies")]
    /\ dict_get "signal" d = Some (VStr "HOLD")
    /\ dict_get "reason" d = Some (VStr "No active strategies")
    /\ dict_get "buy_count" d = None
    /\ dict_get "sell_count" d = None
    /\ dict_get "hold_count" d = None.
Proof.
  intros Hrun. eexists. unfold get_consensus_signal. rewrite Hrun. simpl.
  repeat split.
Qed.

(** ** Registry round trips *)

(** C8.  From any state the manager can reach, adding a strategy and then
    deactivating and removing it by name, in either order, leaves the name
    neither in the registry nor in the active list. *)
Theorem C8_add_deactivate_remove s m :
  reachable m ->
  let m1 := add_strategy s m in
  let m_dr := (remove_strategy (name s) (deactivate_strategy (name s) m1).2).2 in
  let m_rd := (deactivate_strategy (name s) (remove_strategy (name s) m1).2).2 in
  (strategies m_dr !! name s = None /\ name s ∉ active_strategies m_dr)
  /\ (strategies m_rd !! name s = None /\ name s ∉ active_strategies m_rd).
Proof.
  intros Hr m1 m_dr m_rd.
  assert (Hc : consistent m1) by (apply reachable_consistent; by constructor).
  destruct Hc as [Hnd _].
  assert (Hs : strategies m1 !! name s = Some s) by apply lookup_insert_eq.
  split.
  - subst m_dr. unfold deactivate_strategy. rewrite Hs.
    destruct (decide (name s ∈ active_strategies m1)) as [Hact|Hact]; simpl.
    + unfold remove_strategy; simpl. rewrite lookup_insert_eq. simpl.
      split; [apply lookup_delete_eq|].
      case_decide as Hin; [by apply list_remove_gone in Hin | done].
    + unfold remove_strategy. rewrite Hs.
      destruct (decide (name s ∈ active_strategies m1)); [done|]. simpl.
      split; [apply lookup_delete_eq | done].
  - subst m_rd. unfold remove_strategy. rewrite Hs.
    cbv zeta. cbn [snd].
    unfold deactivate_strategy; cbn [strategies]. rewrite lookup_delete_eq.
    cbn [snd strategies active_strategies].
    split; [apply lookup_delete_eq|].
    destruct (decide (name s ∈ active_strategies m1)); [|done].
    by apply list_remove_gone.
Qed.

(** ** Name collisions *)

(** C10.  Each constructor gives the strategy the name of its class,
    whatever the configuration says; two strategies of one class added to
    a manager therefore share a registry entry, which holds the one added
    last; [create_default_strategies] ends with three entries. *)
Theorem C10_class_names_collide :
  (forall sw lw cfg, name (MovingAverageCrossover sw lw cfg) = "MA Crossover")
  /\ (forall p os ob cfg, name (RSIStrategy p os ob cfg) = "RSI Strategy")
  /\ (forall lp vf cfg,
        name (VolatilityBreakout lp vf cfg) = "Volatility Breakout")
  /\ (forall m sw lw cfg sw' lw' cfg',
        strategies (add_strategy (MovingAverageCrossover sw' lw' cfg')
                      (add_strategy (MovingAverageCrossover sw lw cfg) m))
        = <["MA Crossover" := MovingAverageCrossover sw' lw' cfg']> (strategies m))
  /\ (forall m p os ob cfg p' os' ob' cfg',
        strategies (add_strategy (RSIStrategy p' os' ob' cfg')
                      (add_strategy (RSIStrategy p os ob cfg) m))
        = <["RSI Strategy" := RSIStrategy p' os' ob' cfg']> (strategies m))
  /\ (forall m lp vf cfg lp' vf' cfg',
        strategies (add_strategy (VolatilityBreakout lp' vf' cfg')
                      (add_strategy (VolatilityBreakout lp vf cfg) m))
        = <["Volatility Breakout" := VolatilityBreakout lp' vf' cfg']>
            (strategies m))
  /\ (forall m,
        strategies (create_default_strategies m)
        = <["Volatility Breakout" := VolatilityBreakout 20 (3 # 2)%Q None]>
           (<["RSI Strategy" :=
                RSIStrategy 7 25 75 (Some [("name", VStr "RSI Aggressive")])]>
              (<["MA Crossover" :=
                   MovingAverageCrossover 20 50
                     (Some [("name", VStr "MA Crossover Medium")])]>
                 (strategies m))))
  /\ size (strategies (create_default_strategies StrategyManager)) = 3%nat.
Proof.
  split_and!; try done.
  - intros. simpl. apply insert_insert_eq.
  - intros. simpl. apply insert_insert_eq.
  - intros. simpl. apply insert_insert_eq.
  - intros. unfold create_default_strategies. simpl.
    by rewrite !insert_insert_eq.
Qed.

(** ** Running the active strategies *)

Lemma run_loop_spec clock md names :
  forall k reg results,
    NoDup names ->
    (forall n, n ∈ names -> is_Some (reg !! n)) ->
    (forall n, n ∈ names -> dict_get n results = None) ->
    exists res reg',
      run_loop clock md k names reg results = Ok (res, reg')
      /\ (forall i n s, names !! i = Some n -> reg !! n = Some s ->
            outcome_at (clock (k + i)%nat) s md (dict_get n res) (reg' !! n))
      /\ (forall n, n ∉ names ->
            dict_get n res = dict_get n results /\ reg' !! n = reg !! n)
      /\ (exists ext, map fst res = map fst results ++ ext /\ sublist ext names).
Proof.
  induction names as [|x names IH]; intros k reg results Hnd Hreg Hres.
  - exists results, reg. split_and!; try done.
    exists []. by rewrite app_nil_r.
  - apply NoDup_cons in Hnd as [Hx Hnd].
    destruct (Hreg x) as [s Hs]; [apply elem_of_cons; by left|].
    assert (Hxres : dict_get x results = None)
      by (apply Hres, elem_of_cons; by left).
    simpl. rewrite Hs.
    destruct (analyze (clock k) s md) as [[sig s']|e] eqn:Han.
    + destruct (IH (S k) (<[x := s']> reg) (dict_set x sig results) Hnd)
        as (res & reg' & Hrun & Hat & Hout & ext & Hkeys & Hsub).
      { intros n Hn. destruct (decide (x = n)) as [->|Hne]; [done|].
        rewrite lookup_insert_ne by done. apply Hreg, elem_of_cons. by right. }
      { intros n Hn. rewrite dict_get_set_ne by (intros ->; done).
        apply Hres, elem_of_cons. by right. }
      destruct (Hout x Hx) as [Hxr Hxs].
      rewrite dict_get_set_eq in Hxr. rewrite lookup_insert_eq in Hxs.
      exists res, reg'. split_and!; [done| | |].
      * intros [|i] n s0 Hi Hn; simpl in Hi.
        -- inversion Hi; subst n. rewrite Hs in Hn. inversion Hn; subst s0.
           unfold outcome_at. rewrite Nat.add_0_r, Han. done.
        -- assert (n ∈ names) by (by eapply list_elem_of_lookup_2).
           assert (x <> n) by (intros ->; done).
           replace (k + S i)%nat with (S k + i)%nat by lia.
           apply Hat; [done|]. by rewrite lookup_insert_ne.
      * intros n Hn. apply not_elem_of_cons in Hn as [Hne Hn].
        destruct (Hout n Hn) as [-> ->].
        by rewrite dict_get_set_ne, lookup_insert_ne.
      * exists (x :: ext). split; [|by constructor].
        rewrite Hkeys, (dict_set_fresh _ _ _ Hxres), map_app. simpl.
        by rewrite <- app_assoc.
    + destruct (IH (S k) reg results Hnd)
        as (res & reg' & Hrun & Hat & Hout & ext & Hkeys & Hsub).
      { intros n Hn. apply Hreg, elem_of_cons. by right. }
      { intros n Hn. apply Hres, elem_of_cons. by right. }
      destruct (Hout x Hx) as [Hxr Hxs].
      exists res, reg'. split_and!; [done| | |].
      * intros [|i] n s0 Hi Hn; simpl in Hi.
        -- inversion Hi; subst n. rewrite Hs in Hn. inversion Hn; subst s0.
           unfold outcome_at. rewrite Nat.add_0_r, Han.
           by rewrite Hxr, Hxs.
        -- replace (k + S i)%nat with (S k + i)%nat by lia. by apply Hat.
      * intros n Hn. apply not_elem_of_cons in Hn as [Hne Hn]. by apply Hout.
      * exists ext. split; [done|]. by constructor.
Qed.

Lemma run_strategies_spec clock m :
  consistent m ->
  market_data m <> [] ->
  exists res m',
    run_strategies clock m = Ok (res, m')
    /\ active_strategies m' = active_strategies m
    /\ sublist (map fst res) (active_strategies m)
    /\ forall i n s,
         active_strategies m !! i = Some n -> strategies m !! n = Some s ->
         outcome_at (clock i) s (market_data m) (dict_get n res)
           (strategies m' !! n).
Proof.
  intros [Hnd Hreg] Hmd.
  destruct (run_loop_spec clock (market_data m) (active_strategies m) 0%nat
              (strategies m) [] Hnd Hreg)
    as (res & reg' & Hrun & Hat & _ & ext & Hkeys & Hsub); [done|].
  exists res,
    {| strategies := reg'; active_strategies := active_strategies m;
       market_data := market_data m; last_update := last_update m |}.
  split_and!; [|done| |].
  - unfold run_strategies. rewrite Hrun.
    destruct (market_data m) as [|e md] eqn:E; done.
  - by rewrite Hkeys.
  - intros i n s Hi Hn. simpl. apply (Hat i n s Hi Hn).
Qed.

(** C5.  In every reachable state with market data set, [run_strategies]
    returns (it does not raise); the keys of the mapping it returns follow
    the order of the active list; and the strategy at each position of the
    active list is evaluated against the current snapshot: when its
    [analyze] returns, the mapping holds that signal under its name, and
    when its [analyze] raises, the name is absent from the mapping, the
    other names being unaffected. *)
Theorem C5_run_strategies_isolates_faults clock m :
  reachable m ->
  market_data m <> [] ->
  exists res m',
    run_strategies clock m = Ok (res, m')
    /\ sublist (map fst res) (active_strategies m)
    /\ forall i n s,
         active_strategies m !! i = Some n -> strategies m !! n = Some s ->
         match analyze (clock i) s (market_data m) with
         | Ok (sig, s') =>
             dict_get n res = Some sig /\ strategies m' !! n = Some s'
         | Raise _ =>
             dict_get n res = None /\ strategies m' !! n = Some s
         end.
Proof.
  intros Hr Hmd.
  destruct (run_strategies_spec clock m (reachable_consistent m Hr) Hmd)
    as (res & m' & Hrun & _ & Hsub & Hat).
  exists res, m'. split_and!; [done|done|].
  intros i n s Hi Hn. exact (Hat i n s Hi Hn).
Qed.

(** C9.  When a name of the active list is overwritten by [add_strategy]
    with a strategy whose own flag is off, the active list is unchanged
    and still holds the name, the registry holds the new object with its
    flag off, and the next [run_strategies] evaluates that new object:
    its signal is in the result when its [analyze] returns. *)
Theorem C9_active_list_decides clock s m :
  reachable m ->
  name s ∈ active_strategies m ->
  active s = false ->
  market_data m <> [] ->
  let m1 := add_strategy s m in
  active_strategies m1 = active_strategies m
  /\ name s ∈ active_strategies m1
  /\ strategies m1 !! name s = Some s
  /\ exists i res m2,
       active_strategies m1 !! i = Some (name s)
       /\ run_strategies clock m1 = Ok (res, m2)
       /\ match analyze (clock i) s (market_data m1) with
          | Ok (sig, s') =>
              dict_get (name s) res = Some sig
              /\ strategies m2 !! name s = Some s'
              /\ active s' = false
          | Raise _ =>
              dict_get (name s) res = None
              /\ strategies m2 !! name s = Some s
          end.
Proof.
  intros Hr Hact Hflag Hmd m1.
  assert (Hs : strategies m1 !! name s = Some s) by apply lookup_insert_eq.
  split_and!; [done|done|done|].
  apply list_elem_of_lookup_1 in Hact as [i Hi].
  assert (Hc : consistent m1) by (apply reachable_consistent; by constructor).
  destruct (run_strategies_spec clock m1 Hc Hmd)
    as (res & m2 & Hrun & _ & _ & Hat).
  exists i, res, m2. split_and!; [done|done|].
  specialize (Hat i (name s) s Hi Hs). unfold outcome_at in Hat.
  destruct (analyze (clock i) s (market_data m1)) as [[sig s']|e] eqn:Han;
    [|done].
  destruct Hat as [-> ->]. split_and!; [done|done|].
  unfold analyze in Han.
  destruct (kind s); simpl in Han; try discriminate.
  - inversion Han; subst. done.
  - inversion Han; subst. done.
  - destruct (vb_analyze _ _ _ _); simpl in Han; [|done].
    inversion Han; subst. done.
Qed.

(** ** Comparisons on [npfloat] *)

Lemma Qlt_bool_iff (x y : Q) : Qlt_bool x y = true <-> (x < y)%Q.
Proof.
  unfold Qlt_bool. rewrite negb_true_iff. split.
  - intros H. apply Qnot_le_lt. intros Hle.
    apply Qle_bool_iff in Hle. congruence.
  - intros H. destruct (Qle_bool y x) eqn:E; [|done].
    apply Qle_bool_iff in E. by apply Qlt_not_le in H.
Qed.

Lemma fgt_not_fle x y : fgt x y = true -> fle x y = false.
Proof.
  destruct x as [a|], y as [b|]; simpl; try done.
  unfold fgt, flt, fle, fcmp, Qlt_bool. by rewrite negb_true_iff.
Qed.

Lemma fgt_not_flt x y : fgt x y = true -> flt x y = false.
Proof.
  destruct x as [a|], y as [b|]; simpl; try done.
  unfold fgt, flt, fcmp. intros H. apply Qlt_bool_iff in H.
  destruct (Qlt_bool a b) eqn:E; [|done].
  apply Qlt_bool_iff in E. exfalso. eapply Qlt_irrefl, Qlt_trans; eauto.
Qed.

(** ** Moving-average crossover *)

(** No BUY without an upward cross, no SELL while the short average is
    above the long one. *)
Lemma ma_analyze_hold now sw lw md :
  let prices := md_get "prices" md in
  len prices >= lw ->
  fgt (moving_average sw prices) (moving_average lw prices) = true ->
  fle (prev_moving_average sw prices) (prev_moving_average lw prices) = false ->
  dict_get "signal" (ma_analyze now sw lw md) = Some (VStr "HOLD").
Proof.
  intros prices Hlen Hnow Hprev. unfold ma_analyze. fold prices.
  test_fails (len prices <? lw).
  by rewrite Hprev, (fgt_not_flt _ _ Hnow), Hnow.
Qed.

(** C6.  With enough prices, when the short average is above the long
    average both now and one sample earlier, the crossover strategy
    answers HOLD. *)
Theorem C6_sustained_state_is_hold now sw lw cfg md :
  let prices := md_get "prices" md in
  len prices >= lw ->
  fgt (moving_average sw prices) (moving_average lw prices) = true ->
  fgt (prev_moving_average sw prices) (prev_moving_average lw prices) = true ->
  exists d s',
    analyze now (MovingAverageCrossover sw lw cfg) md = Ok (d, s')
    /\ dict_get "signal" d = Some (VStr "HOLD")
    /\ last_signal s' = Some d.
Proof.
  intros prices Hlen Hnow Hprev.
  eexists _, _. split; [reflexivity|]. split; [|reflexivity].
  apply ma_analyze_hold; [done|done|].
  by apply fgt_not_fle.
Qed.

Lemma prev_window_eq w (l : list Q) :
  0 <= w < len l ->
  prev_window w l
  = firstn (Z.to_nat w) (skipn (Z.to_nat (len l - w - 1)) l).
Proof.
  intros Hw. unfold prev_window, py_slice, clamp.
  test_holds (- w - 1 <? 0).
  change (-1 <? 0) with true. cbv iota.
  replace (Z.max 0 (Z.min (- w - 1 + len l) (len l))) with (len l - w - 1) by lia.
  replace (Z.max 0 (Z.min (-1 + len l) (len l))) with (len l - 1) by lia.
  f_equal. lia.
Qed.

Lemma prev_window_ends_before_last w (l : list Q) :
  0 <= w < len l -> ends_before_last w l (prev_window w l).
Proof.
  intros Hw. rewrite prev_window_eq by done.
  set (k := Z.to_nat (len l - w - 1)).
  assert (Hk : length (skipn k l) = S (Z.to_nat w)).
  { rewrite length_skipn. unfold len in Hw. subst k. unfold len. lia. }
  split.
  - unfold len. rewrite length_firstn, Hk. lia.
  - destruct (skipn (Z.to_nat w) (skipn k l)) as [|x [|y t]] eqn:Ht.
    + apply (f_equal length) in Ht. rewrite length_skipn, Hk in Ht.
      simpl in Ht. lia.
    + exists (firstn k l), x.
      rewrite <- Ht, firstn_skipn. by rewrite firstn_skipn.
    + apply (f_equal length) in Ht. rewrite length_skipn, Hk in Ht.
      simpl in Ht. lia.
Qed.

(** C3, on the inputs where it holds.  When the price series is longer
    than both windows (window sizes not negative), the previous short
    average is the mean of [short_window] prices ending at the
    second-to-last element, and the previous long average is the mean of
    [long_window] prices ending at the second-to-last element. *)
Theorem C3_previous_windows sw lw prices :
  0 <= sw < len prices ->
  0 <= lw < len prices ->
  (exists W, ends_before_last sw prices W
             /\ prev_moving_average sw prices = np_mean W)
  /\ (exists W, ends_before_last lw prices W
                /\ prev_moving_average lw prices = np_mean W).
Proof.
  intros Hs Hl. split.
  - exists (prev_window sw prices).
    split; [by apply prev_window_ends_before_last | done].
  - exists (prev_window lw prices).
    split; [by apply prev_window_ends_before_last | done].
Qed.

(** For a window of at least one sample, the previous average is the
    current average of the prices without their last element. *)
Lemma prev_window_excluding_last w (l : list Q) :
  1 <= w ->
  prev_window w l = window w (py_slice l None (Some (-1))).
Proof.
  intros Hw. destruct l as [|a l]; [by destruct w|].
  set (p := a :: l).
  assert (Hn : 1 <= len p) by (unfold len; simpl; lia).
  assert (Hinit : py_slice p None (Some (-1)) = firstn (Z.to_nat (len p - 1)) p).
  { unfold py_slice, clamp. change (-1 <? 0) with true. cbv iota.
    replace (Z.max 0 (Z.min (-1 + len p) (len p))) with (len p - 1) by lia.
    simpl skipn. f_equal. lia. }
  rewrite Hinit.
  assert (Hlen : len (firstn (Z.to_nat (len p - 1)) p) = len p - 1).
  { unfold len. rewrite length_firstn. unfold len in Hn. lia. }
  unfold prev_window, window, py_slice, clamp. rewrite Hlen.
  test_holds (- w - 1 <? 0).
  test_holds (- w <? 0).
  change (-1 <? 0) with true. cbv iota.
  replace (Z.max 0 (Z.min (-1 + len p) (len p))) with (len p - 1) by lia.
  replace (Z.max 0 (Z.min (- w - 1 + len p) (len p)))
    with (Z.max 0 (len p - 1 - w)) by lia.
  replace (Z.max 0 (Z.min (- w + (len p - 1)) (len p - 1)))
    with (Z.max 0 (len p - 1 - w)) by lia.
  set (lo := Z.to_nat (Z.max 0 (len p - 1 - w))).
  set (c := Z.to_nat (len p - 1 - Z.max 0 (len p - 1 - w))).
  rewrite skipn_firstn_comm.
  replace (Z.to_nat (len p - 1) - lo)%nat with c by (subst lo c; lia).
  rewrite firstn_firstn. f_equal. lia.
Qed.

Lemma prev_window_zero (l : list Q) : prev_window 0 l = [].
Proof. unfold prev_window, py_slice. simpl. by rewrite Z.sub_diag. Qed.

(** The same with the earlier averages taken as the current averages of
    the prices without their last element (window sizes not negative). *)
Lemma sustained_state_is_hold_excluding_last now sw lw cfg md :
  let prices := md_get "prices" md in
  let earlier := py_slice prices None (Some (-1)) in
  0 <= sw -> 0 <= lw ->
  len prices >= lw ->
  fgt (moving_average sw prices) (moving_average lw prices) = true ->
  fgt (moving_average sw earlier) (moving_average lw earlier) = true ->
  exists d s',
    analyze now (MovingAverageCrossover sw lw cfg) md = Ok (d, s')
    /\ dict_get "signal" d = Some (VStr "HOLD").
Proof.
  intros prices earlier Hsw Hlw Hlen Hnow Hprev.
  eexists _, _. split; [reflexivity|].
  apply ma_analyze_hold; [done|done|]. fold prices.
  destruct (decide (sw = 0)) as [->|Hs].
  { unfold prev_moving_average. by rewrite prev_window_zero. }
  destruct (decide (lw = 0)) as [->|Hl].
  { unfold prev_moving_average at 2. rewrite prev_window_zero.
    unfold fle, fcmp. by destruct (prev_moving_average sw prices). }
  apply fgt_not_fle. unfold prev_moving_average.
  rewrite !prev_window_excluding_last by lia. exact Hprev.
Qed.

(** ** RSI *)

Lemma np_diff_length l : length (np_diff l) = pred (length l).
Proof.
  induction l as [|a [|b t] IH]; simpl; try done.
  simpl in IH. by rewrite IH.
Qed.

Lemma nondecreasing_no_losses l :
  nondecreasing l ->
  Forall (fun q => (q == 0)%Q) (map (fun d => (- Qmin d 0)%Q) (np_diff l)).
Proof.
  induction l as [|a [|b t] IH]; simpl; try by constructor.
  intros [Hab Ht]. constructor; [|by apply IH].
  assert (H0 : (0 <= b - a)%Q).
  { apply (Qplus_le_r _ _ a). ring_simplify. exact Hab. }
  rewrite (Q.min_r _ _ H0). reflexivity.
Qed.

Lemma Qsum_zero l : Forall (fun q => (q == 0)%Q) l -> (Qsum l == 0)%Q.
Proof.
  induction 1 as [|q l Hq _ IH]; simpl; [reflexivity|].
  rewrite Hq, IH. reflexivity.
Qed.

Lemma np_mean_zero l :
  l <> [] -> Forall (fun q => (q == 0)%Q) l -> feq (np_mean l) (Some 0%Q) = true.
Proof.
  intros Hne Hall. destruct l as [|a t]; [done|].
  unfold np_mean, feq, fcmp. apply Qeq_bool_iff.
  unfold Qdiv. rewrite (Qsum_zero _ Hall). ring.
Qed.

Lemma Forall_py_slice {A} (P : A -> Prop) l a b :
  Forall P l -> Forall P (py_slice l a b).
Proof. intros H. unfold py_slice. by apply Forall_take, Forall_drop. Qed.

Lemma window_length {A} w (l : list A) :
  1 <= w <= len l -> len (py_slice l (Some (- w)) None) = w.
Proof.
  intros Hw. unfold py_slice, clamp.
  test_holds (- w <? 0).
  replace (Z.max 0 (Z.min (- w + len l) (len l))) with (len l - w) by lia.
  unfold len in *. rewrite length_firstn, length_skipn. lia.
Qed.

(** C7, for a period of at least one.  On a non-decreasing price series
    with more than [period] elements, [calculate_rsi] returns exactly
    100. *)
Theorem C7_rsi_without_losses period prices :
  1 <= period ->
  period < len prices ->
  nondecreasing prices ->
  calculate_rsi period prices = Some 100%Q.
Proof.
  intros Hp Hlen Hmono. unfold calculate_rsi.
  test_fails (len prices <=? period).
  set (losses := map (fun d => (- Qmin d 0)%Q) (np_diff prices)).
  assert (Hlosses : len losses = len prices - 1).
  { unfold len, losses. rewrite length_map, np_diff_length.
    unfold len in Hlen. lia. }
  rewrite np_mean_zero; [done| |].
  - intros Hnil. apply (f_equal len) in Hnil.
    rewrite window_length in Hnil by lia. unfold len in Hnil. simpl in Hnil. lia.
  - by apply Forall_py_slice, nondecreasing_no_losses.
Qed.

(** ** Volatility breakout *)

Lemma py_index_back_ok {A} (l : list A) k :
  1 <= k <= len l -> exists x, py_index l (- k) = Ok x.
Proof.
  intros Hk. unfold py_index.
  test_holds (- k <? 0).
  test_fails (- k + len l <? 0).
  destruct (nth_error l (Z.to_nat (- k + len l))) as [x|] eqn:Hx; [eauto|].
  apply nth_error_None in Hx. unfold len in *. lia.
Qed.

Lemma py_index_back_raise {A} (l : list A) k :
  1 <= k -> len l < k -> py_index l (- k) = Raise IndexError.
Proof.
  intros Hk Hlen. unfold py_index.
  test_holds (- k <? 0).
  destruct (- k + len l <? 0) eqn:E'; [done|apply Z.ltb_ge in E'; lia].
Qed.

Lemma py_index_only_IndexError {A} (l : list A) i e :
  py_index l i = Raise e -> e = IndexError.
Proof.
  unfold py_index. destruct (_ <? 0); [congruence|].
  destruct (nth_error _ _); congruence.
Qed.

Lemma true_range_only_IndexError highs lows closes i e :
  true_range highs lows closes i = Raise e -> e = IndexError.
Proof.
  unfold true_range.
  destruct (py_index highs _) eqn:H1; simpl;
    [|intros [= <-]; by eapply py_index_only_IndexError].
  destruct (py_index lows _) eqn:H2; simpl;
    [|intros [= <-]; by eapply py_index_only_IndexError].
  destruct (py_index closes _) eqn:H3; simpl;
    [done|intros [= <-]; by eapply py_index_only_IndexError].
Qed.

Lemma py_range_In a b i : In i (py_range a b) <-> a <= i < b.
Proof.
  unfold py_range. rewrite in_map_iff. split.
  - intros (k & <- & Hk). apply in_seq in Hk. lia.
  - intros Hi. exists (Z.to_nat (i - a)). split; [lia|]. apply in_seq. lia.
Qed.

Lemma for_each_ok {A B} (f : A -> result B) l :
  (forall a, In a l -> exists b, f a = Ok b) ->
  exists bs, for_each f l = Ok bs /\ length bs = length l.
Proof.
  induction l as [|a l IH]; intros H; simpl; [by exists []|].
  destruct (H a) as [b ->]; [by left|].
  destruct IH as (bs & -> & Hlen); [intros; apply H; by right|].
  exists (b :: bs). simpl. by rewrite Hlen.
Qed.

Lemma for_each_raise {A B} (f : A -> result B) l e0 :
  (forall a e, f a = Raise e -> e = e0) ->
  (exists a, In a l /\ f a = Raise e0) ->
  for_each f l = Raise e0.
Proof.
  intros Honly. induction l as [|a l IH]; intros (x & Hx & Hfx); [done|].
  simpl. destruct (f a) as [b|e] eqn:Hfa; simpl.
  - destruct Hx as [->|Hx]; [congruence|].
    rewrite IH; [done|eauto].
  - by rewrite (Honly a e Hfa).
Qed.

(** At the boundary [len(prices) == lookback_period] the strategy raises
    [IndexError], whatever the bars are. *)
Lemma vb_analyze_boundary_raises now lookback_period volatility_factor md :
  len (md_get "highs" md) = len (md_get "prices" md) ->
  len (md_get "lows" md) = len (md_get "prices" md) ->
  len (md_get "prices" md) = lookback_period ->
  vb_analyze now lookback_period volatility_factor md = Raise IndexError.
Proof.
  intros Hh Hl Hn. unfold vb_analyze.
  set (highs := md_get "highs" md) in *. set (lows := md_get "lows" md) in *.
  set (closes := md_get "prices" md) in *.
  test_fails (len closes <? lookback_period).
  rewrite Hh, Hn, Z.min_id.
  destruct (Z_lt_le_dec lookback_period 2) as [Hsmall|Hbig].
  - assert (Hr : py_range 1 lookback_period = []).
    { unfold py_range. replace (Z.to_nat (lookback_period - 1)) with 0%nat by lia.
      done. }
    rewrite Hr. simpl.
    destruct (py_index closes (-1)) as [c|e] eqn:Hc; simpl.
    + assert (py_index closes (-2) = Raise IndexError) as ->
        by (apply (py_index_back_raise closes 2); lia).
      done.
    + by rewrite (py_index_only_IndexError _ _ _ Hc).
  - rewrite (for_each_raise _ _ IndexError); [done| |].
    + intros a e. apply true_range_only_IndexError.
    + exists (lookback_period - 1). split; [apply py_range_In; lia|].
      unfold true_range.
      destruct (py_index_back_ok highs (lookback_period - 1 + 1)) as [h ->];
        [lia|].
      destruct (py_index_back_ok lows (lookback_period - 1 + 1)) as [l ->];
        [lia|].
      simpl. rewrite (py_index_back_raise closes) by lia. done.
Qed.

(** One bar more than the lookback (and at least two bars) is enough:
    the strategy returns a signal of one of the three kinds. *)
Lemma vb_analyze_total_beyond now lookback_period volatility_factor md :
  len (md_get "highs" md) = len (md_get "prices" md) ->
  len (md_get "lows" md) = len (md_get "prices" md) ->
  lookback_period < len (md_get "prices" md) ->
  2 <= len (md_get "prices" md) ->
  exists d k,
    vb_analyze now lookback_period volatility_factor md = Ok d
    /\ dict_get "signal" d = Some (VStr k)
    /\ (k = "BUY" \/ k = "SELL" \/ k = "HOLD").
Proof.
  intros Hh Hl Hn H2. unfold vb_analyze.
  set (highs := md_get "highs" md) in *. set (lows := md_get "lows" md) in *.
  set (closes := md_get "prices" md) in *.
  test_fails (len closes <? lookback_period).
  destruct (for_each_ok (true_range highs lows closes)
              (py_range 1 (Z.min lookback_period (len highs))))
    as (ranges & -> & _).
  { intros i Hi. apply py_range_In in Hi. unfold true_range.
    destruct (py_index_back_ok highs (i + 1)) as [h ->]; [lia|].
    destruct (py_index_back_ok lows (i + 1)) as [l ->]; [lia|].
    destruct (py_index_back_ok closes (i + 2)) as [c ->]; [lia|].
    simpl. eauto. }
  assert (exists c1, py_index closes (-1) = Ok c1) as [c1 ->]
    by (apply (py_index_back_ok closes 1); lia).
  assert (exists c2, py_index closes (-2) = Ok c2) as [c2 ->]
    by (apply (py_index_back_ok closes 2); lia).
  cbn [bind].
  match goal with |- context [fgt ?a ?b] => destruct (fgt a b) end;
    [|match goal with |- context [flt ?a ?b] => destruct (flt a b) end];
    eexists _, _; split_and!; try reflexivity; eauto.
Qed.

(** C1, at the boundary.  A volatility-breakout strategy with lookback 2
    evaluated on exactly two aligned bars raises [IndexError]: at offset 1
    the true-range loop reads the close three bars back. *)
Theorem C1_boundary_raises :
  analyze "t" (VolatilityBreakout 2 (3 # 2)%Q None)
    [("prices", [1; 2]%Q); ("highs", [1; 2]%Q); ("lows", [1; 2]%Q)]
  = Raise IndexError.
Proof. reflexivity. Qed.

(** ** Concrete runs *)

Lemma demo_manager_reachable : reachable demo_manager.
Proof.
  unfold demo_manager, idle_manager.
  apply reach_activate, reach_activate, reach_activate.
  apply reach_add, reach_add, reach_add, reach_update, reach_init.
Defined.

(** Outside the reachable states the lookup before the [try] can fail. *)
Example run_strategies_unregistered_raises :
  run_strategies demo_clock
    {| strategies := ∅; active_strategies := ["ghost"];
       market_data := two_bars; last_update := None |}
  = Raise KeyError.
Proof. reflexivity. Qed.

Example demo_manager_run :
  run_strategies demo_clock demo_manager = Ok (demo_signals, demo_manager_after).
Proof. vm_compute. reflexivity. Qed.

Lemma C2_witness :
  exists d,
    get_consensus_signal demo_clock idle_manager = Ok (d, idle_manager)
    /\ d = [("signal", VStr "HOLD"); ("reason", VStr "No active strategies")]
    /\ dict_get "signal" d = Some (VStr "HOLD")
    /\ dict_get "reason" d = Some (VStr "No active strategies")
    /\ dict_get "buy_count" d = None
    /\ dict_get "sell_count" d = None
    /\ dict_get "hold_count" d = None.
Proof.
  apply (C2_empty_consensus demo_clock idle_manager idle_manager).
  reflexivity.
Defined.

(** C2 as the specification words it fails with market data set and no
    active strategy: the result has no count fields. *)
Lemma C2_counts_absent_counterexample :
  run_strategies demo_clock idle_manager = Ok ([], idle_manager)
  /\ ~ exists d m',
         get_consensus_signal demo_clock idle_manager = Ok (d, m')
         /\ dict_get "signal" d = Some (VStr "HOLD")
         /\ dict_get "buy_count" d = Some (VInt 0)
         /\ dict_get "sell_count" d = Some (VInt 0)
         /\ dict_get "hold_count" d = Some (VInt 0).
Proof.
  split; [reflexivity|].
  intros (d & m' & Hrun & _ & Hb & _). vm_compute in Hrun.
  inversion Hrun; subst d. discriminate Hb.
Qed.

Lemma C3_witness :
  (exists W, ends_before_last 1 [1; 3; 5]%Q W
             /\ prev_moving_average 1 [1; 3; 5]%Q = np_mean W)
  /\ (exists W, ends_before_last 2 [1; 3; 5]%Q W
                /\ prev_moving_average 2 [1; 3; 5]%Q = np_mean W).
Proof.
  apply (C3_previous_windows 1 2 [1; 3; 5]%Q); unfold len; simpl; lia.
Defined.

(** C3 at the boundary: with two prices and a long window of two, the
    previous long average is the mean of the single price before the
    last, and no two prices end at the second-to-last element. *)
Lemma C3_boundary_counterexample :
  len [1; 3]%Q >= 2
  /\ prev_window 2 [1; 3]%Q = [1%Q]
  /\ ~ exists W, ends_before_last 2 [1; 3]%Q W
                 /\ prev_moving_average 2 [1; 3]%Q = np_mean W.
Proof.
  split; [by vm_compute|]. split; [reflexivity|].
  intros (W & (Hlen & pre & x & Heq) & _).
  apply (f_equal length) in Heq. rewrite !length_app in Heq.
  unfold len in Hlen. simpl in Heq. lia.
Qed.

Lemma C4_witness :
  exists d sig,
    get_consensus_signal demo_clock demo_manager = Ok (d, demo_manager_after)
    /\ dict_get "buy_count" d = Some (VInt 1)
    /\ dict_get "sell_count" d = Some (VInt 0)
    /\ dict_get "hold_count" d = Some (VInt 0)
    /\ dict_get "signal" d = Some (VStr sig)
    /\ (sig = "BUY" <-> 1 > 0 /\ 1 > 0)
    /\ (sig = "SELL" <-> 0 > 1 /\ 0 > 0)
    /\ (sig = "HOLD" <-> ~ (1 > 0 /\ 1 > 0) /\ ~ (0 > 1 /\ 0 > 0)).
Proof.
  apply (C4_majority_rule demo_clock demo_manager demo_signals
           demo_manager_after).
  - vm_compute. reflexivity.
  - discriminate.
Defined.

Lemma C5_witness :
  exists res m',
    run_strategies demo_clock demo_manager = Ok (res, m')
    /\ sublist (map fst res) (active_strategies demo_manager)
    /\ forall i n s,
         active_strategies demo_manager !! i = Some n ->
         strategies demo_manager !! n = Some s ->
         match analyze (demo_clock i) s (market_data demo_manager) with
         | Ok (sig, s') =>
             dict_get n res = Some sig /\ strategies m' !! n = Some s'
         | Raise _ =>
             dict_get n res = None /\ strategies m' !! n = Some s
         end.
Proof.
  apply (C5_run_strategies_isolates_faults demo_clock demo_manager).
  - exact demo_manager_reachable.
  - vm_compute. discriminate.
Defined.

Lemma C6_witness :
  exists d s',
    analyze "t" (MovingAverageCrossover 1 2 None) [("prices", [1; 2; 3]%Q)]
    = Ok (d, s')
    /\ dict_get "signal" d = Some (VStr "HOLD")
    /\ last_signal s' = Some d.
Proof.
  apply (C6_sustained_state_is_hold "t" 1 2 None [("prices", [1; 2; 3]%Q)]).
  - vm_compute. discriminate.
  - vm_compute. reflexivity.
  - vm_compute. reflexivity.
Defined.

Lemma C7_witness : calculate_rsi 2 [1; 2; 2]%Q = Some 100%Q.
Proof.
  apply (C7_rsi_without_losses 2 [1; 2; 2]%Q).
  - lia.
  - vm_compute. reflexivity.
  - simpl. repeat split; unfold Qle; simpl; lia.
Defined.

(** C7 with a period of zero: one price is a non-decreasing series of
    more than zero elements, there are no deltas, both averages are [nan]
    and so is the result. *)
Lemma C7_period_zero_counterexample :
  nondecreasing [5%Q]
  /\ 0 < len [5%Q]
  /\ calculate_rsi 0 [5%Q] = None
  /\ calculate_rsi 0 [5%Q] <> Some 100%Q.
Proof. split_and!; [exact I | reflexivity | reflexivity | discriminate]. Qed.

Lemma C8_witness :
  (strategies
     (remove_strategy "MA Crossover"
        (deactivate_strategy "MA Crossover"
           (add_strategy fresh_crossover demo_manager)).2).2
   !! "MA Crossover" = None
   /\ "MA Crossover"
      ∉ active_strategies
          (remove_strategy "MA Crossover"
             (deactivate_strategy "MA Crossover"
                (add_strategy fresh_crossover demo_manager)).2).2)
  /\ (strategies
        (deactivate_strategy "MA Crossover"
           (remove_strategy "MA Crossover"
              (add_strategy fresh_crossover demo_manager)).2).2
      !! "MA Crossover" = None
      /\ "MA Crossover"
         ∉ active_strategies
             (deactivate_strategy "MA Crossover"
                (remove_strategy "MA Crossover"
                   (add_strategy fresh_crossover demo_manager)).2).2).
Proof.
  apply (C8_add_deactivate_remove fresh_crossover demo_manager).
  exact demo_manager_reachable.
Defined.

Lemma C9_witness :
  active_strategies (add_strategy fresh_crossover demo_manager)
  = active_strategies demo_manager
  /\ "MA Crossover" ∈ active_strategies (add_strategy fresh_crossover demo_manager)
  /\ strategies (add_strategy fresh_crossover demo_manager) !! "MA Crossover"
     = Some fresh_crossover
  /\ exists i res m2,
       active_strategies (add_strategy fresh_crossover demo_manager) !! i
       = Some "MA Crossover"
       /\ run_strategies demo_clock (add_strategy fresh_crossover demo_manager)
          = Ok (res, m2)
       /\ match analyze (demo_clock i) fresh_crossover two_bars with
          | Ok (sig, s') =>
              dict_get "MA Crossover" res = Some sig
              /\ strategies m2 !! "MA Crossover" = Some s'
              /\ active s' = false
          | Raise _ =>
              dict_get "MA Crossover" res = None
              /\ strategies m2 !! "MA Crossover" = Some fresh_crossover
          end.
Proof.
  apply (C9_active_list_decides demo_clock fresh_crossover demo_manager).
  - exact demo_manager_reachable.
  - vm_compute. set_solver.
  - reflexivity.
  - discriminate.
Defined.

(** * Further properties of the strategies *)

(** ** RSI *)

Lemma Qsum_nonneg l : Forall (fun q => (0 <= q)%Q) l -> (0 <= Qsum l)%Q.
Proof.
  induction 1 as [|q l Hq _ IH]; simpl; [apply Qle_refl|]. lra.
Qed.

Lemma len_pos_inject {A} (l : list A) : l <> [] -> (0 < inject_Z (len l))%Q.
Proof.
  intros Hne. destruct l as [|a t]; [done|].
  change 0%Q with (inject_Z 0). rewrite <- Zlt_Qlt. unfold len. simpl. lia.
Qed.

Lemma np_mean_nonneg l :
  l <> [] -> Forall (fun q => (0 <= q)%Q) l ->
  exists q, np_mean l = Some q /\ (0 <= q)%Q.
Proof.
  intros Hne Hall. pose proof (len_pos_inject l Hne) as Hlen.
  pose proof (Qsum_nonneg l Hall) as Hsum.
  destruct l as [|a t]; [done|]. eexists. split; [reflexivity|].
  apply Qle_shift_div_l; [done|]. lra.
Qed.



(** The last [period] entries of a sequence derived from the deltas of
    more than [period] prices are there. *)
Lemma last_deltas_nonempty (f : Q -> Q) period prices :
  1 <= period -> period < len prices ->
  py_slice (map f (np_diff prices)) (Some (- period)) None <> [].
Proof.
  intros Hp Hlen Hnil. apply (f_equal len) in Hnil.
  rewrite window_length in Hnil; [unfold len in Hnil; simpl in Hnil; lia|].
  unfold len in *. rewrite length_map, np_diff_length. lia.
Qed.



Lemma Qsum_const c l :
  Forall (fun q => (q == c)%Q) l -> (Qsum l == c * inject_Z (len l))%Q.
Proof.
  induction 1 as [|q l Hq _ IH].
  - unfold len. simpl. ring.
  - change (Qsum (q :: l)) with (q + Qsum l)%Q.
    replace (len (q :: l)) with (len l + 1) by (unfold len; simpl length; lia).
    rewrite inject_Z_plus, Hq, IH. ring.
Qed.

Lemma np_mean_const c l :
  l <> [] -> Forall (fun q => (q == c)%Q) l ->
  exists q, np_mean l = Some q /\ (q == c)%Q.
Proof.
  intros Hne Hall. pose proof (len_pos_inject l Hne) as Hlen.
  pose proof (Qsum_const c l Hall) as Hsum.
  destruct l as [|a t]; [done|]. eexists. split; [reflexivity|].
  rewrite Hsum. field. lra.
Qed.





Lemma rsi_no_losses period prices :
  1 <= period -> period < len prices -> nondecreasing prices ->
  calculate_rsi period prices = Some 100%Q.
Proof.
  intros Hp Hlen Hmono. unfold calculate_rsi.
  test_fails (len prices <=? period).
  rewrite np_mean_zero; [done| |].
  - by apply last_deltas_nonempty.
  - by apply Forall_py_slice, nondecreasing_no_losses.
Qed.

(** [l[:-1]] is [l] without its last element. *)
Lemma py_slice_init {A} (l : list A) :
  py_slice l None (Some (-1)) = firstn (length l - 1) l.
Proof.
  unfold py_slice, clamp. change (-1 <? 0) with true. cbv iota.
  rewrite Z.sub_0_r. simpl skipn. f_equal. unfold len. lia.
Qed.

Lemma nondecreasing_firstn k l : nondecreasing l -> nondecreasing (firstn k l).
Proof.
  revert k. induction l as [|a [|b t] IH]; intros k H.
  - by destruct k.
  - destruct k as [|[|k]]; done.
  - destruct k as [|[|k]]; try done.
    destruct H as [Hab Ht]. split; [done|]. apply (IH (S k) Ht).
Qed.

Lemma edge_down_exclusive x y : flt x y && fge x y = false.
Proof.
  destruct x as [a|], y as [b|]; try done.
  unfold flt, fge, fle, fcmp, Qlt_bool. by destruct (Qle_bool b a).
Qed.

Lemma edge_up_exclusive x y : fgt x y && fle x y = false.
Proof.
  destruct x as [a|], y as [b|]; try done.
  unfold fgt, flt, fle, fcmp, Qlt_bool. by destruct (Qle_bool a b).
Qed.

(** X3.  The RSI strategy is edge-triggered on a series that never falls:
    once there are at least [period + 2] prices, the current and the
    previous RSI are both 100 and the answer is HOLD, for every pair of
    thresholds. *)
Theorem X3_rsi_sustained_is_hold now period oversold overbought cfg md :
  1 <= period ->
  period + 1 < len (md_get "prices" md) ->
  nondecreasing (md_get "prices" md) ->
  exists d s',
    analyze now (RSIStrategy period oversold overbought cfg) md = Ok (d, s')
    /\ dict_get "signal" d = Some (VStr "HOLD")
    /\ dict_get "rsi" d = Some (VNum (Some 100%Q))
    /\ last_signal s' = Some d.
Proof.
  intros Hp Hlen Hmono. eexists _, _. split; [reflexivity|].
  cbn [fst snd last_signal set_last_signal]. unfold rsi_analyze.
  set (prices := md_get "prices" md) in *.
  test_fails (len prices <=? period).
  rewrite (rsi_no_losses period prices) by (done || lia).
  rewrite py_slice_init, (rsi_no_losses period (firstn _ prices)).
  - rewrite edge_down_exclusive, edge_up_exclusive. done.
  - done.
  - unfold len in *. rewrite length_firstn. lia.
  - by apply nondecreasing_firstn.
Qed.

Lemma X3_witness :
  exists d s',
    analyze "t" (RSIStrategy 2 30 70 None) [("prices", [1; 2; 2; 3]%Q)]
    = Ok (d, s')
    /\ dict_get "signal" d = Some (VStr "HOLD")
    /\ dict_get "rsi" d = Some (VNum (Some 100%Q))
    /\ last_signal s' = Some d.
Proof.
  apply (X3_rsi_sustained_is_hold "t" 2 30 70 None [("prices", [1; 2; 2; 3]%Q)]).
  - lia.
  - vm_compute. reflexivity.
  - simpl. repeat split; unfold Qle; simpl; lia.
Defined.

(** X4.  With exactly [period + 1] prices that never fall, the current RSI
    is 100 and the previous one is the default 50 of too short a series,
    so the strategy answers SELL whenever [50 <= overbought < 100]. *)
Theorem X4_rsi_first_window_sells now period oversold overbought cfg md :
  1 <= period ->
  len (md_get "prices" md) = period + 1 ->
  nondecreasing (md_get "prices" md) ->
  50 <= overbought < 100 ->
  exists d s',
    analyze now (RSIStrategy period oversold overbought cfg) md = Ok (d, s')
    /\ dict_get "signal" d = Some (VStr "SELL")
    /\ last_signal s' = Some d.
Proof.
  intros Hp Hlen Hmono Hob. eexists _, _. split; [reflexivity|].
  cbn [fst snd last_signal set_last_signal]. unfold rsi_analyze.
  set (prices := md_get "prices" md) in *.
  test_fails (len prices <=? period).
  rewrite (rsi_no_losses period prices) by (done || lia).
  assert (Hprev : calculate_rsi period (py_slice prices None (Some (-1)))
                  = Some 50%Q).
  { unfold calculate_rsi. rewrite py_slice_init.
    assert (len (firstn (length prices - 1) prices) <= period) as Hshort
      by (unfold len in *; rewrite length_firstn; lia).
    by apply Z.leb_le in Hshort as ->. }
  rewrite Hprev.
  assert (Hlo : (50 <= inject_Z overbought)%Q)
    by (change 50%Q with (inject_Z 50); rewrite <- Zle_Qle; lia).
  assert (Hhi : (inject_Z overbought < 100)%Q)
    by (change 100%Q with (inject_Z 100); rewrite <- Zlt_Qlt; lia).
  assert (Hbuy : flt (Some 100%Q) (Some (inject_Z oversold))
                 && fge (Some 50%Q) (Some (inject_Z oversold)) = false).
  { unfold flt, fge, fle, fcmp.
    destruct (Qlt_bool 100 (inject_Z oversold)) eqn:E1; [|done].
    destruct (Qle_bool (inject_Z oversold) 50) eqn:E2; [|done].
    apply Qlt_bool_iff in E1. apply Qle_bool_iff in E2. lra. }
  assert (Hsell : fgt (Some 100%Q) (Some (inject_Z overbought))
                  && fle (Some 50%Q) (Some (inject_Z overbought)) = true).
  { unfold fgt, flt, fle, fcmp. apply andb_true_iff. split.
    - by apply Qlt_bool_iff.
    - by apply Qle_bool_iff. }
  rewrite Hbuy, Hsell. done.
Qed.

Lemma X4_witness :
  exists d s',
    analyze "t" (RSIStrategy 2 30 70 None) [("prices", [4; 4; 4]%Q)]
    = Ok (d, s')
    /\ dict_get "signal" d = Some (VStr "SELL")
    /\ last_signal s' = Some d.
Proof.
  apply (X4_rsi_first_window_sells "t" 2 30 70 None [("prices", [4; 4; 4]%Q)]).
  - lia.
  - vm_compute. reflexivity.
  - simpl. repeat split; unfold Qle; simpl; lia.
  - lia.
Defined.

(** ** Volatility breakout *)

Lemma for_each_Forall {A B} (f : A -> result B) (P : B -> Prop) l :
  (forall a b, f a = Ok b -> P b) ->
  forall bs, for_each f l = Ok bs -> Forall P bs.
Proof.
  intros Hf. induction l as [|a l IH]; simpl; intros bs H.
  - inversion H. constructor.
  - destruct (f a) as [b|] eqn:Hb; simpl in H; [|done].
    destruct (for_each f l) as [bs'|]; simpl in H; [|done].
    inversion H; subst. constructor; eauto.
Qed.

Lemma true_range_nonneg highs lows closes i q :
  true_range highs lows closes i = Ok q -> (0 <= q)%Q.
Proof.
  unfold true_range.
  destruct (py_index highs _) as [h|]; simpl; [|done].
  destruct (py_index lows _) as [l|]; simpl; [|done].
  destruct (py_index closes _) as [c|]; simpl; [|done].
  intros [= <-].
  eapply Qle_trans; [apply (Qabs_nonneg (l - c))|apply Q.le_max_r].
Qed.

(** What [vb_analyze] returns when it returns: the insufficient-data
    answer, or an answer computed from a volatility estimate that is not
    negative and the last two closes. *)
Lemma vb_analyze_ok_shape now lookback_period vf md d :
  vb_analyze now lookback_period vf md = Ok d ->
  (len (md_get "prices" md) < lookback_period /\ d = insufficient_data)
  \/ exists a c1 c2,
       (0 <= a)%Q
       /\ py_index (md_get "prices" md) (-1) = Ok c1
       /\ py_index (md_get "prices" md) (-2) = Ok c2
       /\ dict_get "atr" d = Some (VNum (Some a))
       /\ dict_get "upper_band" d = Some (VNum (Some (c2 + a * vf)%Q))
       /\ dict_get "lower_band" d = Some (VNum (Some (c2 - a * vf)%Q))
       /\ dict_get "signal" d
          = Some (VStr (if Qlt_bool (c2 + a * vf) c1 then "BUY"
                        else if Qlt_bool c1 (c2 - a * vf) then "SELL"
                        else "HOLD")).
Proof.
  unfold vb_analyze.
  set (highs := md_get "highs" md). set (lows := md_get "lows" md).
  set (closes := md_get "prices" md).
  destruct (len closes <? lookback_period) eqn:E.
  { intros [= <-]. left. apply Z.ltb_lt in E. done. }
  destruct (for_each _ _) as [ranges|] eqn:Hranges; cbn [bind]; [|done].
  apply (for_each_Forall _ (fun q => (0 <= q)%Q)) in Hranges;
    [|intros i q; apply true_range_nonneg].
  assert (Hatr : exists a, match ranges with
                           | [] => Some 0%Q
                           | _ => np_mean ranges
                           end = Some a /\ (0 <= a)%Q).
  { destruct ranges as [|r rs] eqn:Er; [exists 0%Q; split; [done|lra]|].
    rewrite <- Er in *. apply np_mean_nonneg; [by rewrite Er | done]. }
  destruct Hatr as (a & -> & Ha).
  destruct (py_index closes (-1)) as [c1|]; cbn [bind]; [|done].
  destruct (py_index closes (-2)) as [c2|]; cbn [bind]; [|done].
  cbn [fop]. unfold fgt, flt, fcmp.
  destruct (Qlt_bool (c2 + a * vf) c1) eqn:E1;
    [|destruct (Qlt_bool c1 (c2 - a * vf)) eqn:E2];
    intros [= <-]; right; exists a, c1, c2; rewrite ?E1, ?E2;
    split_and!; done.
Qed.

(** X5.  Whenever the volatility-breakout strategy computes bands, the
    volatility estimate it reports is not negative, and with a factor that
    is not negative the lower band is not above the upper band. *)
Theorem X5_breakout_bands_ordered now lookback_period vf md d :
  vb_analyze now lookback_period vf md = Ok d ->
  d <> insufficient_data ->
  exists a lo up,
    dict_get "atr" d = Some (VNum (Some a))
    /\ dict_get "lower_band" d = Some (VNum (Some lo))
    /\ dict_get "upper_band" d = Some (VNum (Some up))
    /\ (0 <= a)%Q
    /\ ((0 <= vf)%Q -> (lo <= up)%Q).
Proof.
  intros Hrun Hd.
  destruct (vb_analyze_ok_shape _ _ _ _ _ Hrun)
    as [[_ ->]|(a & c1 & c2 & Ha & _ & _ & Hatr & Hup & Hlo & _)]; [done|].
  exists a, (c2 - a * vf)%Q, (c2 + a * vf)%Q. split_and!; try done.
  intros Hvf. assert (0 <= a * vf)%Q by (by apply Qmult_le_0_compat). lra.
Qed.

(** X6.  When the last close equals the one before it and the factor is
    not negative, a volatility-breakout strategy that has enough bars
    answers HOLD. *)
Theorem X6_breakout_quiet_bar_is_hold now lookback_period vf cfg md c1 c2 :
  len (md_get "highs" md) = len (md_get "prices" md) ->
  len (md_get "lows" md) = len (md_get "prices" md) ->
  lookback_period < len (md_get "prices" md) ->
  py_index (md_get "prices" md) (-1) = Ok c1 ->
  py_index (md_get "prices" md) (-2) = Ok c2 ->
  (c1 == c2)%Q ->
  (0 <= vf)%Q ->
  exists d s',
    analyze now (VolatilityBreakout lookback_period vf cfg) md = Ok (d, s')
    /\ dict_get "signal" d = Some (VStr "HOLD")
    /\ last_signal s' = Some d.
Proof.
  intros Hh Hl Hn H1 H2 Heq Hvf.
  assert (Hlen : 2 <= len (md_get "prices" md)).
  { destruct (Z_lt_le_dec (len (md_get "prices" md)) 2) as [Hsmall|]; [|done].
    assert (py_index (md_get "prices" md) (-2) = Raise IndexError)
      by (apply (py_index_back_raise _ 2); lia).
    congruence. }
  destruct (vb_analyze_total_beyond now lookback_period vf md Hh Hl Hn Hlen)
    as (d & k & Hrun & _).
  exists d, (set_last_signal (VolatilityBreakout lookback_period vf cfg) d).
  unfold analyze. cbn [kind VolatilityBreakout TradingStrategy_init].
  rewrite Hrun. cbn [bind]. split_and!; [done| |done].
  destruct (vb_analyze_ok_shape _ _ _ _ _ Hrun)
    as [[Hshort _]|(a & c1' & c2' & Ha & H1' & H2' & _ & _ & _ & Hsig)]; [lia|].
  rewrite H1 in H1'. rewrite H2 in H2'.
  injection H1' as <-. injection H2' as <-.
  rewrite Hsig.
  assert (0 <= a * vf)%Q by (by apply Qmult_le_0_compat).
  destruct (Qlt_bool (c2 + a * vf) c1) eqn:E1;
    [apply Qlt_bool_iff in E1; lra|].
  destruct (Qlt_bool c1 (c2 - a * vf)) eqn:E2;
    [apply Qlt_bool_iff in E2; lra|].
  done.
Qed.

(** ** Moving-average crossover *)

Lemma mean_of_flat c l a b :
  Forall (fun q => (q == c)%Q) l ->
  np_mean (py_slice l a b) = None
  \/ exists q, np_mean (py_slice l a b) = Some q /\ (q == c)%Q.
Proof.
  intros Hall. destruct (py_slice l a b) as [|x t] eqn:E; [by left|].
  right. rewrite <- E. apply np_mean_const; [by rewrite E|].
  by apply Forall_py_slice.
Qed.

Lemma flat_not_lt c x y :
  (x = None \/ exists q, x = Some q /\ (q == c)%Q) ->
  (y = None \/ exists q, y = Some q /\ (q == c)%Q) ->
  flt x y = false.
Proof.
  intros [->|(p & -> & Hp)] [->|(q & -> & Hq)]; try done.
  unfold flt, fcmp. destruct (Qlt_bool p q) eqn:E; [|done].
  apply Qlt_bool_iff in E. lra.
Qed.

(** X7.  On a flat price series that is longer than both windows, the
    crossover strategy answers HOLD.  (With the series longer than the
    windows, each previous average is taken over as many equal prices as
    the current one, so the answer does not rest on how a mean is
    rounded.) *)
Theorem X7_crossover_flat_is_hold now sw lw cfg md c :
  1 <= sw < len (md_get "prices" md) ->
  1 <= lw < len (md_get "prices" md) ->
  Forall (fun q => (q == c)%Q) (md_get "prices" md) ->
  exists d s',
    analyze now (MovingAverageCrossover sw lw cfg) md = Ok (d, s')
    /\ dict_get "signal" d = Some (VStr "HOLD")
    /\ last_signal s' = Some d.
Proof.
  intros _ _ Hflat. eexists _, _. split; [reflexivity|]. split; [|reflexivity].
  cbn [fst]. unfold ma_analyze.
  destruct (len (md_get "prices" md) <? lw); [done|].
  unfold fgt, moving_average, window.
  rewrite !(flat_not_lt c) by (by apply mean_of_flat). done.
Qed.

Lemma X7_witness :
  exists d s',
    analyze "t" (MovingAverageCrossover 2 3 None) [("prices", [4; 4; 4; 4]%Q)]
    = Ok (d, s')
    /\ dict_get "signal" d = Some (VStr "HOLD")
    /\ last_signal s' = Some d.
Proof.
  apply (X7_crossover_flat_is_hold "t" 2 3 None
           [("prices", [4; 4; 4; 4]%Q)] 4%Q).
  - vm_compute. split; [discriminate | reflexivity].
  - vm_compute. split; [discriminate | reflexivity].
  - simpl. repeat constructor.
Defined.

Lemma prev_window_of_appended w (l : list Q) p :
  1 <= w -> prev_window w (l ++ [p]) = window w l.
Proof.
  intros Hw. rewrite prev_window_excluding_last, py_slice_init by done.
  rewrite length_app. simpl.
  replace (length l + 1 - 1)%nat with (length l) by lia.
  by rewrite firstn_app, Nat.sub_diag, firstn_all, app_nil_r.
Qed.

Lemma ma_analyze_buy_inv now sw lw md :
  dict_get "signal" (ma_analyze now sw lw md) = Some (VStr "BUY") ->
  lw <= len (md_get "prices" md)
  /\ fgt (moving_average sw (md_get "prices" md))
         (moving_average lw (md_get "prices" md)) = true.
Proof.
  unfold ma_analyze. destruct (len _ <? lw) eqn:E; [done|].
  apply Z.ltb_ge in E. intros Hsig. split; [done|].
  destruct (fgt _ _); [done|]. simpl in Hsig.
  by destruct (flt _ _ && fge _ _).
Qed.

Lemma ma_analyze_sell_inv now sw lw md :
  dict_get "signal" (ma_analyze now sw lw md) = Some (VStr "SELL") ->
  lw <= len (md_get "prices" md)
  /\ flt (moving_average sw (md_get "prices" md))
         (moving_average lw (md_get "prices" md)) = true.
Proof.
  unfold ma_analyze. destruct (len _ <? lw) eqn:E; [done|].
  apply Z.ltb_ge in E. intros Hsig. split; [done|].
  destruct (fgt _ _ && fle _ _); [done|].
  destruct (flt _ _); [done|]. by simpl in Hsig.
Qed.

(** X8.  The crossover signal does not repeat: when the strategy answers
    BUY (or SELL) and is evaluated again after one more price has
    arrived, it does not answer BUY (or SELL) again.  Windows are at
    least one sample long. *)
Theorem X8_crossover_does_not_repeat now now' sw lw cfg md md' p d s1 :
  1 <= sw -> 1 <= lw ->
  md_get "prices" md' = md_get "prices" md ++ [p] ->
  analyze now (MovingAverageCrossover sw lw cfg) md = Ok (d, s1) ->
  exists d' s2,
    analyze now' s1 md' = Ok (d', s2)
    /\ (dict_get "signal" d = Some (VStr "BUY") ->
        dict_get "signal" d' <> Some (VStr "BUY"))
    /\ (dict_get "signal" d = Some (VStr "SELL") ->
        dict_get "signal" d' <> Some (VStr "SELL")).
Proof.
  intros Hsw Hlw Hmd' Hrun. unfold analyze in Hrun. simpl in Hrun.
  injection Hrun as <- <-.
  eexists _, _. split; [reflexivity|]. cbn [fst].
  assert (Hprev : forall w, 1 <= w ->
            prev_moving_average w (md_get "prices" md')
            = moving_average w (md_get "prices" md)).
  { intros w Hw. unfold prev_moving_average, moving_average.
    by rewrite Hmd', prev_window_of_appended. }
  split.
  - intros Hbuy. apply ma_analyze_buy_inv in Hbuy as [Hlen Hgt].
    unfold ma_analyze.
    destruct (len (md_get "prices" md') <? lw) eqn:E; [done|].
    rewrite !Hprev by done. rewrite (fgt_not_fle _ _ Hgt), andb_false_r.
    by destruct (flt _ _ && fge _ _).
  - intros Hsell. apply ma_analyze_sell_inv in Hsell as [Hlen Hlt].
    unfold ma_analyze.
    destruct (len (md_get "prices" md') <? lw) eqn:E; [done|].
    rewrite !Hprev by done.
    assert (Hge : fge (moving_average sw (md_get "prices" md))
                      (moving_average lw (md_get "prices" md)) = false)
      by (apply (fgt_not_fle _ _ Hlt)).
    rewrite Hge, andb_false_r. by destruct (fgt _ _ && fle _ _).
Qed.

(** * Further properties of the manager *)

(** ** What [analyze] returns *)

Lemma analyze_last_signal now s md sig s' :
  analyze now s md = Ok (sig, s') -> s' = set_last_signal s sig.
Proof.
  unfold analyze. destruct (kind s); try done.
  - by intros [= <- <-].
  - by intros [= <- <-].
  - destruct (vb_analyze _ _ _ _); simpl; [|done]. by intros [= <- <-].
Qed.

Lemma ma_analyze_three_kinds now sw lw md : three_kinds (ma_analyze now sw lw md).
Proof.
  unfold ma_analyze, three_kinds. destruct (_ <? _); [by eexists; eauto|].
  destruct (fgt _ _ && fle _ _); [by eexists; eauto|].
  destruct (flt _ _ && fge _ _); by eexists; eauto.
Qed.

Lemma rsi_analyze_three_kinds now p os ob md :
  three_kinds (rsi_analyze now p os ob md).
Proof.
  unfold rsi_analyze, three_kinds. destruct (_ <=? _); [by eexists; eauto|].
  destruct (flt _ _ && fge _ _); [by eexists; eauto|].
  destruct (fgt _ _ && fle _ _); by eexists; eauto.
Qed.

Lemma analyze_three_kinds now s md sig s' :
  analyze now s md = Ok (sig, s') -> three_kinds sig.
Proof.
  unfold analyze. destruct (kind s) as [|sw lw|p os ob|lp vf]; try done.
  - intros [= <- _]. apply ma_analyze_three_kinds.
  - intros [= <- _]. apply rsi_analyze_three_kinds.
  - destruct (vb_analyze now lp vf md) as [d|] eqn:Hrun; simpl; [|done].
    intros [= <- _].
    destruct (vb_analyze_ok_shape _ _ _ _ _ Hrun)
      as [[_ ->]|(a & c1 & c2 & _ & _ & _ & _ & _ & _ & Hsig)].
    + by eexists; eauto.
    + eexists. split; [exact Hsig|].
      destruct (Qlt_bool _ _); [by left|].
      destruct (Qlt_bool _ _); [right; by left | right; by right].
Qed.

Lemma analyze_short_of_data now s md :
  short_of_data s md ->
  analyze now s md = Ok (insufficient_data, set_last_signal s insufficient_data).
Proof.
  unfold short_of_data, analyze.
  destruct (kind s) as [|sw lw|p os ob|lp vf]; [done| | |]; intros Hshort.
  - unfold ma_analyze. by apply Z.ltb_lt in Hshort as ->.
  - unfold rsi_analyze. by apply Z.leb_le in Hshort as ->.
  - unfold vb_analyze. by apply Z.ltb_lt in Hshort as ->.
Qed.

(** ** The loop of [run_strategies] keeps what each turn keeps *)

Lemma run_loop_invariant
    (I : list (string * dict) -> gmap string strategy -> Prop)
    clock md (names0 : list string) :
  (forall k x s sig s' results reg,
      x ∈ names0 -> reg !! x = Some s ->
      analyze (clock k) s md = Ok (sig, s') ->
      I results reg -> I (dict_set x sig results) (<[x := s']> reg)) ->
  forall names, names ⊆ names0 ->
  forall k reg results res reg',
    I results reg ->
    run_loop clock md k names reg results = Ok (res, reg') ->
    I res reg'.
Proof.
  intros Hstep. induction names as [|x names IH];
    intros Hsub k reg results res reg' HI Hrun; simpl in Hrun.
  - by injection Hrun as <- <-.
  - assert (Hx : x ∈ names0) by (apply Hsub, elem_of_cons; by left).
    assert (Hsub' : names ⊆ names0)
      by (intros y Hy; apply Hsub, elem_of_cons; by right).
    destruct (reg !! x) as [s|] eqn:Hs; [|done].
    destruct (analyze (clock k) s md) as [[sig s']|e] eqn:Han.
    + eapply (IH Hsub'); [|exact Hrun]. by eapply Hstep.
    + by eapply (IH Hsub').
Qed.

Lemma run_strategies_invariant
    (I : list (string * dict) -> gmap string strategy -> Prop) clock m res m' :
  (forall k x s sig s' results reg,
      x ∈ active_strategies m -> reg !! x = Some s ->
      analyze (clock k) s (market_data m) = Ok (sig, s') ->
      I results reg -> I (dict_set x sig results) (<[x := s']> reg)) ->
  I [] (strategies m) ->
  run_strategies clock m = Ok (res, m') ->
  I res (strategies m').
Proof.
  intros Hstep H0. unfold run_strategies.
  destruct (market_data m) as [|e md] eqn:Hmd; [by intros [= <- <-]|].
  destruct (run_loop _ _ _ _ _ _) as [[r reg']|] eqn:Hloop; simpl; [|done].
  intros [= <- <-]. simpl.
  eapply (run_loop_invariant I clock (e :: md) (active_strategies m)); eauto.
Qed.

Lemma run_strategies_frame clock m res m' :
  run_strategies clock m = Ok (res, m') ->
  active_strategies m' = active_strategies m
  /\ market_data m' = market_data m
  /\ last_update m' = last_update m.
Proof.
  unfold run_strategies.
  destruct (market_data m) as [|e md] eqn:Hmd; [by intros [= <- <-]|].
  destruct (run_loop _ _ _ _ _ _) as [[r reg']|]; simpl; [|done].
  by intros [= <- <-].
Qed.

Lemma run_strategies_keeps_strategies clock m res m' :
  run_strategies clock m = Ok (res, m') ->
  forall n,
    match strategies m !! n, strategies m' !! n with
    | Some s, Some s' => same_but_signal s s'
    | None, None => True
    | _, _ => False
    end.
Proof.
  intros Hrun.
  apply (run_strategies_invariant
           (fun _ reg => forall n,
              match strategies m !! n, reg !! n with
              | Some s, Some s' => same_but_signal s s'
              | None, None => True
              | _, _ => False
              end) clock m res m'); [| |done].
  - intros k x s sig s' results reg _ Hs Han HI n.
    apply analyze_last_signal in Han as ->.
    destruct (decide (x = n)) as [->|Hne].
    + rewrite lookup_insert_eq. specialize (HI n). rewrite Hs in HI.
      destruct (strategies m !! n); [|done].
      destruct HI as (? & ? & ? & ?). by split_and!.
    + rewrite lookup_insert_ne by done. apply HI.
  - intros n. destruct (strategies m !! n); [|done]. by split_and!.
Qed.

(** X9.  [run_strategies] changes nothing but the remembered signals: the
    active list, the market data and the update time are as before, the
    same names are registered, and each registered strategy keeps its
    name, configuration, flag and parameters. *)
Theorem X9_run_changes_only_last_signal clock m res m' :
  run_strategies clock m = Ok (res, m') ->
  active_strategies m' = active_strategies m
  /\ market_data m' = market_data m
  /\ last_update m' = last_update m
  /\ forall n,
       match strategies m !! n, strategies m' !! n with
       | Some s, Some s' => same_but_signal s s'
       | None, None => True
       | _, _ => False
       end.
Proof.
  intros Hrun.
  destruct (run_strategies_frame _ _ _ _ Hrun) as (Ha & Hmd & Hup).
  split_and!; try done.
  by eapply run_strategies_keeps_strategies.
Qed.

(** X10.  After [run_strategies], every entry of the returned mapping is
    what [get_signal] of the strategy registered under that name
    returns. *)
Theorem X10_results_are_latest_signals clock m res m' :
  run_strategies clock m = Ok (res, m') ->
  forall n sig,
    dict_get n res = Some sig ->
    exists s', strategies m' !! n = Some s' /\ get_signal s' = Some sig.
Proof.
  intros Hrun.
  apply (run_strategies_invariant
           (fun results reg => forall n sig,
              dict_get n results = Some sig ->
              exists s', reg !! n = Some s' /\ get_signal s' = Some sig)
           clock m res m'); [| |done].
  - intros k x s sig s' results reg _ Hs Han HI n sig' Hn.
    apply analyze_last_signal in Han as ->.
    destruct (decide (x = n)) as [->|Hne].
    + rewrite dict_get_set_eq in Hn. injection Hn as <-.
      rewrite lookup_insert_eq. eauto.
    + rewrite dict_get_set_ne in Hn by done.
      rewrite lookup_insert_ne by done. by apply HI.
  - intros n sig Hn. done.
Qed.

(** ** Tallies *)

Lemma dict_set_Forall {V} (P : string * V -> Prop) k v d :
  P (k, v) -> Forall P d -> Forall P (dict_set k v d).
Proof.
  intros Hkv. induction 1 as [|[k' v'] d Hx Hd IH]; simpl.
  - by repeat constructor.
  - destruct (String.eqb k k'); by constructor.
Qed.

Lemma count_signal_cons what k d signals :
  count_signal what ((k, d) :: signals)
  = (if val_is_str (dict_get "signal" d) what then 1 else 0)
    + count_signal what signals.
Proof.
  unfold count_signal, len. simpl.
  destruct (val_is_str _ _); simpl length; lia.
Qed.

Lemma count_three_kinds signals :
  Forall (fun kd => three_kinds kd.2) signals ->
  count_signal "BUY" signals + count_signal "SELL" signals
  + count_signal "HOLD" signals = len signals.
Proof.
  induction 1 as [|kd rest Hkd _ IH]; [done|].
  destruct kd as [k d]. destruct Hkd as (what & Hsig & Hwhat).
  rewrite !count_signal_cons. simpl in Hsig. rewrite Hsig.
  replace (len ((k, d) :: rest)) with (1 + len rest)
    by (unfold len; simpl length; lia).
  destruct Hwhat as [-> | [-> | ->]]; simpl; lia.
Qed.

Lemma run_strategies_three_kinds clock m res m' :
  run_strategies clock m = Ok (res, m') ->
  Forall (fun kd => three_kinds kd.2) res.
Proof.
  intros Hrun.
  apply (run_strategies_invariant
           (fun results _ => Forall (fun kd => three_kinds kd.2) results)
           clock m res m'); [|constructor|done].
  intros k x s sig s' results reg _ _ Han HI.
  apply dict_set_Forall; [|done]. simpl. by eapply analyze_three_kinds.
Qed.

(** X11.  The three counts of a consensus add up to the number of
    strategies that were evaluated: every signal [run_strategies]
    collects is a BUY, a SELL or a HOLD. *)
Theorem X11_counts_add_up clock m signals m' :
  run_strategies clock m = Ok (signals, m') ->
  signals <> [] ->
  exists d b s h,
    get_consensus_signal clock m = Ok (d, m')
    /\ dict_get "buy_count" d = Some (VInt b)
    /\ dict_get "sell_count" d = Some (VInt s)
    /\ dict_get "hold_count" d = Some (VInt h)
    /\ 0 <= b /\ 0 <= s /\ 0 <= h
    /\ b + s + h = len signals.
Proof.
  intros Hrun Hne.
  destruct (consensus_counts (clock (length (active_strategies m))) signals Hne)
    as (Hb & Hs & Hh).
  eexists _, _, _, _. unfold get_consensus_signal. rewrite Hrun. simpl.
  split; [reflexivity|]. split; [exact Hb|]. split; [exact Hs|].
  split; [exact Hh|].
  split_and!; try (unfold count_signal, len; lia).
  apply count_three_kinds. by eapply run_strategies_three_kinds.
Qed.

(** X12.  Without market data the consensus is HOLD with the reason
    "No active strategies", whatever is registered or active, and the
    manager is left as it was. *)
Theorem X12_no_market_data clock m :
  market_data m = [] ->
  run_strategies clock m = Ok ([], m)
  /\ get_consensus_signal clock m
     = Ok ([("signal", VStr "HOLD"); ("reason", VStr "No active strategies")],
           m).
Proof.
  intros Hmd. unfold get_consensus_signal, run_strategies. by rewrite Hmd.
Qed.

(** ** Too little history everywhere *)

Lemma dict_get_Some_key {V} k (v : V) d :
  dict_get k d = Some v -> k ∈ map fst d.
Proof.
  induction d as [|[k' v'] d IH]; simpl; [done|].
  destruct (String.eqb_spec k k') as [->|Hne]; intros H.
  - apply elem_of_cons. by left.
  - apply elem_of_cons. right. by apply IH.
Qed.

Lemma count_all_insufficient signals :
  Forall (fun kd => kd.2 = insufficient_data) signals ->
  count_signal "BUY" signals = 0
  /\ count_signal "SELL" signals = 0
  /\ count_signal "HOLD" signals = len signals.
Proof.
  induction 1 as [|kd rest Hkd _ (IHb & IHs & IHh)]; [done|].
  destruct kd as [k d]. simpl in Hkd. subst d.
  rewrite !count_signal_cons, IHb, IHs, IHh. simpl.
  split_and!; try done. unfold len. simpl length. lia.
Qed.

Lemma run_strategies_all_short clock m res m' :
  (forall n s, n ∈ active_strategies m -> strategies m !! n = Some s ->
               short_of_data s (market_data m)) ->
  run_strategies clock m = Ok (res, m') ->
  Forall (fun kd => kd.2 = insufficient_data) res.
Proof.
  intros Hshort Hrun.
  apply (run_strategies_invariant
           (fun results reg =>
              (forall n s, n ∈ active_strategies m -> reg !! n = Some s ->
                           short_of_data s (market_data m))
              /\ Forall (fun kd => kd.2 = insufficient_data) results)
           clock m res m'); [| |done].
  - intros k x s sig s' results reg Hx Hs Han [Hreg Hres].
    rewrite (analyze_short_of_data _ _ _ (Hreg x s Hx Hs)) in Han.
    injection Han as <- <-. split.
    + intros n s0 Hn. destruct (decide (x = n)) as [->|Hne].
      * rewrite lookup_insert_eq. intros [= <-]. apply (Hreg n s Hn Hs).
      * rewrite lookup_insert_ne by done. by apply Hreg.
    + by apply dict_set_Forall.
  - split; [done|constructor].
Qed.

(** X13.  When every active strategy has too little price history, the
    consensus is HOLD; no strategy raises, and with at least one active
    strategy the tallies are no BUY, no SELL and one HOLD per active
    strategy. *)
Theorem X13_short_history_is_hold clock m :
  reachable m ->
  market_data m <> [] ->
  (forall n s, n ∈ active_strategies m -> strategies m !! n = Some s ->
               short_of_data s (market_data m)) ->
  exists d m',
    get_consensus_signal clock m = Ok (d, m')
    /\ dict_get "signal" d = Some (VStr "HOLD")
    /\ (active_strategies m <> [] ->
        dict_get "buy_count" d = Some (VInt 0)
        /\ dict_get "sell_count" d = Some (VInt 0)
        /\ dict_get "hold_count" d
           = Some (VInt (len (active_strategies m)))).
Proof.
  intros Hr Hmd Hshort.
  pose proof (reachable_consistent m Hr) as Hc.
  destruct (run_strategies_spec clock m Hc Hmd)
    as (res & m' & Hrun & _ & Hsub & Hat).
  destruct Hc as [Hnd Hreg].
  pose proof (run_strategies_all_short clock m res m' Hshort Hrun) as Hall.
  destruct (count_all_insufficient res Hall) as (Hb & Hs & Hh).
  assert (Hlen : length res = length (active_strategies m)).
  { apply Nat.le_antisymm.
    - rewrite <- (length_map fst res). by apply sublist_length.
    - rewrite <- (length_map fst res). apply submseteq_length.
      apply NoDup_submseteq; [done|]. intros n Hn.
      destruct (Hreg n Hn) as [s Hs'].
      apply list_elem_of_lookup_1 in Hn as Hi. destruct Hi as [i Hi].
      specialize (Hat i n s Hi Hs'). unfold outcome_at in Hat.
      rewrite (analyze_short_of_data _ _ _ (Hshort n s Hn Hs')) in Hat.
      destruct Hat as [Hget _]. by eapply dict_get_Some_key. }
  exists (consensus (clock (length (active_strategies m))) res), m'.
  split; [unfold get_consensus_signal; by rewrite Hrun|].
  destruct res as [|e res'] eqn:Eres.
  { split; [done|]. intros Hne. destruct (active_strategies m); done. }
  rewrite <- Eres in *.
  assert (Hne : res <> []) by (by rewrite Eres).
  pose proof (consensus_signal (clock (length (active_strategies m))) res Hne)
    as Hsig. simpl in Hsig. rewrite Hb, Hs in Hsig.
  destruct (consensus_counts (clock (length (active_strategies m))) res Hne)
    as (Hcb & Hcs & Hch).
  split; [exact Hsig|]. intros _.
  rewrite Hcb, Hcs, Hch, Hb, Hs, Hh. unfold len. by rewrite Hlen.
Qed.

(** ** The registry *)

Lemma reachable_keys_are_names m :
  reachable m -> forall n s, strategies m !! n = Some s -> name s = n.
Proof.
  induction 1 as [|s0 m _ IH|n0 m _ IH|n0 m _ IH|n0 m _ IH|now md m _ IH
                 |clock m r m' _ IH Hrun|m _ IH]; intros n s.
  - simpl. by rewrite lookup_empty.
  - simpl. destruct (decide (name s0 = n)) as [<-|Hne].
    + rewrite lookup_insert_eq. by intros [= <-].
    + rewrite lookup_insert_ne by done. apply IH.
  - unfold remove_strategy. destruct (strategies m !! n0) eqn:E; simpl.
    + intros Hn. apply lookup_delete_Some in Hn as [_ Hn]. by apply IH.
    + apply IH.
  - unfold activate_strategy. destruct (strategies m !! n0) as [s0|] eqn:E;
      simpl; [|apply IH].
    destruct (decide (n0 ∈ active_strategies m)); simpl; [apply IH|].
    destruct (decide (n0 = n)) as [<-|Hne].
    + rewrite lookup_insert_eq. intros [= <-]. simpl. by apply IH.
    + rewrite lookup_insert_ne by done. apply IH.
  - unfold deactivate_strategy. destruct (strategies m !! n0) as [s0|] eqn:E;
      simpl; [|apply IH].
    destruct (decide (n0 ∈ active_strategies m)); simpl; [|apply IH].
    destruct (decide (n0 = n)) as [<-|Hne].
    + rewrite lookup_insert_eq. intros [= <-]. simpl. by apply IH.
    + rewrite lookup_insert_ne by done. apply IH.
  - apply IH.
  - intros Hs. pose proof (run_strategies_keeps_strategies _ _ _ _ Hrun n) as H.
    rewrite Hs in H. destruct (strategies m !! n) as [s0|] eqn:E; [|done].
    destruct H as (Hname & _). rewrite Hname. by apply IH.
  - unfold create_default_strategies. simpl.
    repeat (match goal with
            | |- <[?k := _]> _ !! _ = _ -> _ =>
                destruct (decide (k = n)) as [<-|?];
                [rewrite lookup_insert_eq; by intros [= <-]
                |rewrite lookup_insert_ne by done]
            end).
    apply IH.
Qed.

(** X14.  In every state the manager can reach through its operations, no
    name is active twice, every active name is registered, and every
    strategy is registered under its own name. *)
Theorem X14_manager_invariant m :
  reachable m ->
  NoDup (active_strategies m)
  /\ (forall n, n ∈ active_strategies m -> is_Some (strategies m !! n))
  /\ (forall n s, strategies m !! n = Some s -> name s = n).
Proof.
  intros Hr. destruct (reachable_consistent m Hr) as [Hnd Hreg].
  split_and!; [done|done|]. by apply reachable_keys_are_names.
Qed.

Lemma X14_witness :
  NoDup (active_strategies demo_manager)
  /\ (forall n, n ∈ active_strategies demo_manager ->
                is_Some (strategies demo_manager !! n))
  /\ (forall n s, strategies demo_manager !! n = Some s -> name s = n).
Proof. apply (X14_manager_invariant demo_manager demo_manager_reachable). Defined.

(** X15.  Activation and deactivation are idempotent: a second call with
    the same name returns what the first returned and leaves the state
    the first produced. *)
Theorem X15_activation_is_idempotent n m :
  reachable m ->
  activate_strategy n (activate_strategy n m).2 = activate_strategy n m
  /\ deactivate_strategy n (deactivate_strategy n m).2
     = deactivate_strategy n m.
Proof.
  intros Hr. destruct (reachable_consistent m Hr) as [Hnd _]. split.
  - unfold activate_strategy at 2 3.
    destruct (strategies m !! n) as [s|] eqn:Hs; simpl.
    + destruct (decide (n ∈ active_strategies m)) as [Hin|Hin]; simpl.
      * unfold activate_strategy. rewrite Hs. by rewrite decide_True.
      * unfold activate_strategy. simpl. rewrite lookup_insert_eq.
        rewrite decide_True; [done|]. apply elem_of_app. right.
        by apply list_elem_of_singleton.
    + unfold activate_strategy. by rewrite Hs.
  - unfold deactivate_strategy at 2 3.
    destruct (strategies m !! n) as [s|] eqn:Hs; simpl.
    + destruct (decide (n ∈ active_strategies m)) as [Hin|Hin]; simpl.
      * unfold deactivate_strategy. simpl. rewrite lookup_insert_eq.
        rewrite decide_False; [done|]. by apply list_remove_gone.
      * unfold deactivate_strategy. rewrite Hs. by rewrite decide_False.
    + unfold deactivate_strategy. by rewrite Hs.
Qed.

Lemma X15_witness :
  activate_strategy "Custom" (activate_strategy "Custom" demo_manager).2
  = activate_strategy "Custom" demo_manager
  /\ deactivate_strategy "Custom" (deactivate_strategy "Custom" demo_manager).2
     = deactivate_strategy "Custom" demo_manager.
Proof.
  apply (X15_activation_is_idempotent "Custom" demo_manager
           demo_manager_reachable).
Defined.

Lemma list_remove_appended x l : x ∉ l -> list_remove x (l ++ [x]) = l.
Proof.
  induction l as [|y l IH]; simpl; intros Hx.
  - by rewrite String.eqb_refl.
  - apply not_elem_of_cons in Hx as [Hne Hx].
    destruct (String.eqb_spec x y); [done|]. by rewrite IH.
Qed.

(** X16.  Activating a registered strategy that is not active and whose
    flag is off, and then deactivating it, gives back the manager as it
    was. *)
Theorem X16_activate_then_deactivate n s m :
  strategies m !! n = Some s ->
  n ∉ active_strategies m ->
  active s = false ->
  activate_strategy n m
  = (true, {| strategies := <[n := activate s]> (strategies m);
              active_strategies := active_strategies m ++ [n];
              market_data := market_data m;
              last_update := last_update m |})
  /\ deactivate_strategy n (activate_strategy n m).2 = (true, m).
Proof.
  intros Hs Hn Hflag.
  assert (Hact : activate_strategy n m
                 = (true, {| strategies := <[n := activate s]> (strategies m);
                             active_strategies := active_strategies m ++ [n];
                             market_data := market_data m;
                             last_update := last_update m |})).
  { unfold activate_strategy. rewrite Hs. by rewrite decide_False. }
  split; [done|]. rewrite Hact. unfold deactivate_strategy. simpl.
  rewrite lookup_insert_eq. rewrite decide_True
    by (apply elem_of_app; right; by apply list_elem_of_singleton).
  f_equal. rewrite list_remove_appended by done. rewrite insert_insert_eq.
  assert (Hback : deactivate (activate s) = s)
    by (destruct s; simpl in Hflag; by rewrite Hflag).
  rewrite Hback, insert_id by done. by destruct m.
Qed.

Lemma X16_witness :
  activate_strategy "RSI Strategy"
    (add_strategy (RSIStrategy 14 30 70 None) demo_manager)
  = (true,
     {| strategies :=
          <["RSI Strategy" := activate (RSIStrategy 14 30 70 None)]>
            (strategies (add_strategy (RSIStrategy 14 30 70 None) demo_manager));
        active_strategies := active_strategies demo_manager ++ ["RSI Strategy"];
        market_data := market_data demo_manager;
        last_update := last_update demo_manager |})
  /\ deactivate_strategy "RSI Strategy"
       (activate_strategy "RSI Strategy"
          (add_strategy (RSIStrategy 14 30 70 None) demo_manager)).2
     = (true, add_strategy (RSIStrategy 14 30 70 None) demo_manager).
Proof.
  apply (X16_activate_then_deactivate "RSI Strategy"
           (RSIStrategy 14 30 70 None)
           (add_strategy (RSIStrategy 14 30 70 None) demo_manager)).
  - vm_compute. reflexivity.
  - apply (bool_decide_unpack _). vm_compute. exact I.
  - reflexivity.
Defined.

Lemma list_remove_other x y l : x <> y -> (y ∈ list_remove x l <-> y ∈ l).
Proof.
  intros Hne. induction l as [|z l IH]; simpl; [done|].
  destruct (String.eqb_spec x z) as [->|Hz].
  - rewrite elem_of_cons. split; [by right|]. by intros [?|?].
  - by rewrite !elem_of_cons, IH.
Qed.

(** X17.  [remove_strategy] says whether the name was registered;
    afterwards the name is neither registered nor active, and every other
    name is registered and active exactly as before. *)
Theorem X17_remove_touches_one_name n m :
  reachable m ->
  let ok := (remove_strategy n m).1 in
  let m' := (remove_strategy n m).2 in
  (ok = true <-> is_Some (strategies m !! n))
  /\ (strategies m' !! n = None)
  /\ (n ∉ active_strategies m')
  /\ forall n', n' <> n ->
       strategies m' !! n' = strategies m !! n'
       /\ (n' ∈ active_strategies m' <-> n' ∈ active_strategies m).
Proof.
  intros Hr. destruct (reachable_consistent m Hr) as [Hnd Hreg].
  unfold remove_strategy. destruct (strategies m !! n) as [s|] eqn:Hs; simpl.
  - split_and!.
    + split; eauto.
    + apply lookup_delete_eq.
    + case_decide; [by apply list_remove_gone | done].
    + intros n' Hne. split; [by apply lookup_delete_ne|].
      case_decide; [|done]. apply list_remove_other. congruence.
  - split_and!.
    + split; [done|]. by intros [? ?].
    + done.
    + intros Hin. apply Hreg in Hin as [? ?]. congruence.
    + done.
Qed.

Lemma X17_witness :
  ((remove_strategy "Custom" demo_manager).1 = true
   <-> is_Some (strategies demo_manager !! "Custom"))
  /\ (strategies (remove_strategy "Custom" demo_manager).2 !! "Custom" = None)
  /\ ("Custom" ∉ active_strategies (remove_strategy "Custom" demo_manager).2)
  /\ forall n', n' <> "Custom" ->
       strategies (remove_strategy "Custom" demo_manager).2 !! n'
       = strategies demo_manager !! n'
       /\ (n' ∈ active_strategies (remove_strategy "Custom" demo_manager).2
           <-> n' ∈ active_strategies demo_manager).
Proof.
  apply (X17_remove_touches_one_name "Custom" demo_manager
           demo_manager_reachable).
Defined.

(** * The market data handed to the strategies *)

Lemma lookup_map {A B} (f : A -> B) (l : list A) i :
  map f l !! i = f <$> l !! i.
Proof. revert i. induction l as [|a l IH]; intros [|i]; simpl; auto. Qed.

Lemma py_range_lookup a b (i : nat) :
  (i < Z.to_nat (b - a))%nat -> py_range a b !! i = Some (a + Z.of_nat i).
Proof.
  intros Hi. unfold py_range. rewrite lookup_map.
  assert (seq 0 (Z.to_nat (b - a)) !! i = Some i) as ->
    by (apply lookup_seq; lia).
  done.
Qed.

Lemma for_each_lookup {A B} (f : A -> result B) l bs :
  for_each f l = Ok bs ->
  forall j a, l !! j = Some a -> exists b, bs !! j = Some b /\ f a = Ok b.
Proof.
  revert bs. induction l as [|x l IH]; simpl; intros bs H j a Hj; [done|].
  destruct (f x) as [b|] eqn:Hb; simpl in H; [|done].
  destruct (for_each f l) as [bs'|]; simpl in H; [|done].
  injection H as <-. destruct j as [|j]; simpl in *.
  - injection Hj as <-. eauto.
  - by apply IH.
Qed.

Lemma fold_max_bounds t : forall acc x,
  x = acc \/ x ∈ t ->
  (x <= fold_left (fun acc y => if Qlt_bool acc y then y else acc) t acc)%Q.
Proof.
  induction t as [|y t IH]; simpl; intros acc x [->|Hx].
  - apply Qle_refl.
  - by apply elem_of_nil in Hx.
  - destruct (Qlt_bool acc y) eqn:E.
    + apply Qlt_bool_iff in E. eapply Qle_trans; [apply Qlt_le_weak, E|].
      apply IH. by left.
    + apply IH. by left.
  - apply elem_of_cons in Hx as [->|Hx]; [|apply IH; by right].
    destruct (Qlt_bool acc y) eqn:E; [apply IH; by left|].
    eapply Qle_trans; [|apply IH; by left].
    apply Qnot_lt_le. intros Hlt. apply Qlt_bool_iff in Hlt. congruence.
Qed.

Lemma fold_min_bounds t : forall acc x,
  x = acc \/ x ∈ t ->
  (fold_left (fun acc y => if Qlt_bool y acc then y else acc) t acc <= x)%Q.
Proof.
  induction t as [|y t IH]; simpl; intros acc x [->|Hx].
  - apply Qle_refl.
  - by apply elem_of_nil in Hx.
  - destruct (Qlt_bool y acc) eqn:E.
    + apply Qlt_bool_iff in E. eapply Qle_trans; [|apply Qlt_le_weak, E].
      apply IH. by left.
    + apply IH. by left.
  - apply elem_of_cons in Hx as [->|Hx]; [|apply IH; by right].
    destruct (Qlt_bool y acc) eqn:E; [apply IH; by left|].
    eapply Qle_trans; [apply IH; by left|].
    apply Qnot_lt_le. intros Hlt. apply Qlt_bool_iff in Hlt. congruence.
Qed.

Lemma py_max_bounds w h x : py_max w = Some h -> x ∈ w -> (x <= h)%Q.
Proof.
  destruct w as [|a t]; [done|]. intros [= <-] Hx.
  apply fold_max_bounds. apply elem_of_cons in Hx as [?|?]; auto.
Qed.

Lemma py_min_bounds w l x : py_min w = Some l -> x ∈ w -> (l <= x)%Q.
Proof.
  destruct w as [|a t]; [done|]. intros [= <-] Hx.
  apply fold_min_bounds. apply elem_of_cons in Hx as [?|?]; auto.
Qed.

(** The window of bar [i] holds the price of bar [i]. *)
Lemma window_holds_price (prices : list Q) (i : nat) p start :
  prices !! i = Some p ->
  0 <= start <= Z.of_nat i ->
  p ∈ py_slice prices (Some start) (Some (Z.of_nat i + 1)).
Proof.
  intros Hi Hstart. apply lookup_lt_Some in Hi as Hlt.
  unfold py_slice, clamp.
  test_fails (start <? 0). test_fails (Z.of_nat i + 1 <? 0).
  replace (Z.max 0 (Z.min start (len prices))) with start
    by (unfold len; lia).
  replace (Z.max 0 (Z.min (Z.of_nat i + 1) (len prices)))
    with (Z.of_nat i + 1) by (unfold len; lia).
  apply (list_elem_of_lookup_2 _ (i - Z.to_nat start)).
  rewrite lookup_take, decide_True by lia.
  rewrite lookup_drop. by replace (Z.to_nat start + (i - Z.to_nat start))%nat
    with i by lia.
Qed.

Lemma high_low_at_bounds (prices : list Q) window_size (i : nat) p :
  0 <= window_size ->
  prices !! i = Some p ->
  exists h l,
    high_low_at prices window_size (Z.of_nat i) = Ok (h, l)
    /\ (l <= p <= h)%Q.
Proof.
  intros Hw Hi. unfold high_low_at.
  pose proof (window_holds_price prices i p
                (Z.max 0 (Z.of_nat i - window_size)) Hi ltac:(lia)) as Hin.
  destruct (py_slice prices _ _) as [|a t] eqn:E;
    [by apply elem_of_nil in Hin|].
  destruct (py_max (a :: t)) as [h|] eqn:Hh; [|done].
  destruct (py_min (a :: t)) as [l|] eqn:Hl; [|done].
  exists h, l. split; [done|]. split.
  - by eapply py_min_bounds.
  - by eapply py_max_bounds.
Qed.

Lemma market_data_aligned historical_data current_price token_id
    vs_currency :
  exists d,
    get_market_data_for_strategy historical_data current_price token_id
      vs_currency = Ok d
    /\ sequences_of d <> []
    /\ md_get "prices" (sequences_of d) = md_get "prices" historical_data
    /\ len (md_get "highs" (sequences_of d))
       = len (md_get "prices" (sequences_of d))
    /\ len (md_get "lows" (sequences_of d))
       = len (md_get "prices" (sequences_of d))
    /\ forall i p,
         md_get "prices" (sequences_of d) !! i = Some p ->
         exists h l,
           md_get "highs" (sequences_of d) !! i = Some h
           /\ md_get "lows" (sequences_of d) !! i = Some l
           /\ (l <= p <= h)%Q.
Proof.
  unfold get_market_data_for_strategy.
  set (prices := md_get "prices" historical_data).
  set (ws := Z.min 5 (len prices)).
  assert (Hws : 0 <= ws) by (unfold ws, len; lia).
  destruct (for_each_ok (high_low_at prices ws) (py_range 0 (len prices)))
    as (bars & Hbars & Hlen).
  { intros i Hi. apply py_range_In in Hi.
    destruct (prices !! Z.to_nat i) as [p|] eqn:Hp.
    - destruct (high_low_at_bounds prices ws (Z.to_nat i) p Hws Hp)
        as (h & l & Hhl & _).
      rewrite Z2Nat.id in Hhl by lia. eauto.
    - apply lookup_ge_None in Hp. unfold len in Hi. lia. }
  rewrite Hbars. cbn [bind]. eexists. split; [reflexivity|].
  simpl.
  match goal with |- context [md_get "highs" ?s] => set (snap := s) end.
  assert (md_get "prices" snap = prices) as -> by reflexivity.
  assert (md_get "highs" snap = map fst bars) as -> by reflexivity.
  assert (md_get "lows" snap = map snd bars) as -> by reflexivity.
  assert (Hn : length bars = length prices).
  { rewrite Hlen. unfold py_range. rewrite length_map, length_seq.
    unfold len. lia. }
  split_and!; [done|done| | |].
  - unfold len. by rewrite length_map, Hn.
  - unfold len. by rewrite length_map, Hn.
  - intros i p Hp. apply lookup_lt_Some in Hp as Hlt.
    destruct (for_each_lookup _ _ _ Hbars i (Z.of_nat i))
      as ([h l] & Hb & Hhl).
    { rewrite py_range_lookup; [f_equal; lia|]. unfold len. lia. }
    destruct (high_low_at_bounds prices ws i p Hws Hp) as (h' & l' & Hhl' & Hb').
    rewrite Hhl in Hhl'. injection Hhl' as <- <-.
    exists h, l. rewrite !lookup_map, Hb. done.
Qed.

(** X18.  [get_market_data_for_strategy] does not raise; the dict it
    builds is never empty; the prices are those of the history; there is
    one high and one low per price, and each price lies between its low
    and its high. *)
Theorem X18_market_data_is_aligned historical_data current_price token_id
    vs_currency :
  exists d,
    get_market_data_for_strategy historical_data current_price token_id
      vs_currency = Ok d
    /\ sequences_of d <> []
    /\ md_get "prices" (sequences_of d) = md_get "prices" historical_data
    /\ len (md_get "highs" (sequences_of d))
       = len (md_get "prices" (sequences_of d))
    /\ len (md_get "lows" (sequences_of d))
       = len (md_get "prices" (sequences_of d))
    /\ forall i p,
         md_get "prices" (sequences_of d) !! i = Some p ->
         exists h l,
           md_get "highs" (sequences_of d) !! i = Some h
           /\ md_get "lows" (sequences_of d) !! i = Some l
           /\ (l <= p <= h)%Q.
Proof. apply market_data_aligned. Qed.

(** X19.  The dict built by [get_market_data_for_strategy] is one the
    volatility-breakout strategy can work on: with more prices than the
    lookback, and at least two, the strategy returns a BUY, SELL or HOLD
    signal and does not raise. *)
Theorem X19_breakout_on_built_market_data historical_data current_price
    token_id vs_currency now lookback_period vf cfg d :
  get_market_data_for_strategy historical_data current_price token_id
    vs_currency = Ok d ->
  lookback_period < len (md_get "prices" historical_data) ->
  2 <= len (md_get "prices" historical_data) ->
  exists sig s',
    analyze now (VolatilityBreakout lookback_period vf cfg) (sequences_of d)
    = Ok (sig, s')
    /\ three_kinds sig.
Proof.
  intros Hd Hlook H2.
  destruct (market_data_aligned historical_data current_price token_id
              vs_currency) as (d' & Hd' & _ & Hp & Hh & Hl & _).
  rewrite Hd in Hd'. injection Hd' as <-.
  destruct (vb_analyze_total_beyond now lookback_period vf (sequences_of d))
    as (sig & k & Hrun & Hsig & Hk); [done|done|by rewrite Hp|by rewrite Hp|].
  exists sig, (set_last_signal (VolatilityBreakout lookback_period vf cfg) sig).
  split; [|by exists k].
  unfold analyze. cbn [kind VolatilityBreakout TradingStrategy_init].
  by rewrite Hrun.
Qed.

(** * Concrete runs of the further properties *)

Lemma X5_witness :
  exists a lo up,
    dict_get "atr" three_bars_breakout = Some (VNum (Some a))
    /\ dict_get "lower_band" three_bars_breakout = Some (VNum (Some lo))
    /\ dict_get "upper_band" three_bars_breakout = Some (VNum (Some up))
    /\ (0 <= a)%Q
    /\ ((0 <= 3 # 2)%Q -> (lo <= up)%Q).
Proof.
  apply (X5_breakout_bands_ordered "t" 2 (3 # 2)%Q three_bars
           three_bars_breakout).
  - vm_compute. reflexivity.
  - discriminate.
Defined.

Lemma X6_witness :
  exists d s',
    analyze "t" (VolatilityBreakout 2 (3 # 2)%Q None) quiet_bars = Ok (d, s')
    /\ dict_get "signal" d = Some (VStr "HOLD")
    /\ last_signal s' = Some d.
Proof.
  apply (X6_breakout_quiet_bar_is_hold "t" 2 (3 # 2)%Q None quiet_bars 2%Q 2%Q).
  - reflexivity.
  - reflexivity.
  - vm_compute. reflexivity.
  - reflexivity.
  - reflexivity.
  - reflexivity.
  - unfold Qle. simpl. lia.
Defined.

Lemma X8_witness :
  exists d' s2,
    analyze "u" (set_last_signal (MovingAverageCrossover 1 2 None) first_cross)
      [("prices", [1; 3; 5]%Q)] = Ok (d', s2)
    /\ (dict_get "signal" first_cross = Some (VStr "BUY") ->
        dict_get "signal" d' <> Some (VStr "BUY"))
    /\ (dict_get "signal" first_cross = Some (VStr "SELL") ->
        dict_get "signal" d' <> Some (VStr "SELL")).
Proof.
  apply (X8_crossover_does_not_repeat "t" "u" 1 2 None
           [("prices", [1; 3]%Q)] [("prices", [1; 3; 5]%Q)] 5%Q).
  - lia.
  - lia.
  - reflexivity.
  - vm_compute. reflexivity.
Defined.

Lemma X9_witness :
  active_strategies demo_manager_after = active_strategies demo_manager
  /\ market_data demo_manager_after = market_data demo_manager
  /\ last_update demo_manager_after = last_update demo_manager
  /\ forall n,
       match strategies demo_manager !! n, strategies demo_manager_after !! n with
       | Some s, Some s' => same_but_signal s s'
       | None, None => True
       | _, _ => False
       end.
Proof.
  apply (X9_run_changes_only_last_signal demo_clock demo_manager demo_signals).
  vm_compute. reflexivity.
Defined.

Lemma X10_witness :
  exists s',
    strategies demo_manager_after !! "MA Crossover" = Some s'
    /\ get_signal s' = dict_get "MA Crossover" demo_signals.
Proof.
  apply (X10_results_are_latest_signals demo_clock demo_manager demo_signals
           demo_manager_after).
  - vm_compute. reflexivity.
  - reflexivity.
Defined.

Lemma X11_witness :
  exists d b s h,
    get_consensus_signal demo_clock demo_manager = Ok (d, demo_manager_after)
    /\ dict_get "buy_count" d = Some (VInt b)
    /\ dict_get "sell_count" d = Some (VInt s)
    /\ dict_get "hold_count" d = Some (VInt h)
    /\ 0 <= b /\ 0 <= s /\ 0 <= h
    /\ b + s + h = len demo_signals.
Proof.
  apply (X11_counts_add_up demo_clock demo_manager demo_signals
           demo_manager_after).
  - vm_compute. reflexivity.
  - discriminate.
Defined.

Lemma X12_witness :
  run_strategies demo_clock dataless_manager = Ok ([], dataless_manager)
  /\ get_consensus_signal demo_clock dataless_manager
     = Ok ([("signal", VStr "HOLD"); ("reason", VStr "No active strategies")],
           dataless_manager).
Proof. apply (X12_no_market_data demo_clock dataless_manager). reflexivity. Defined.

Lemma defaults_manager_reachable : reachable defaults_manager.
Proof.
  unfold defaults_manager, idle_manager.
  apply reach_activate, reach_activate, reach_activate.
  apply reach_defaults, reach_update, reach_init.
Defined.

Lemma X13_witness :
  exists d m',
    get_consensus_signal demo_clock defaults_manager = Ok (d, m')
    /\ dict_get "signal" d = Some (VStr "HOLD")
    /\ (active_strategies defaults_manager <> [] ->
        dict_get "buy_count" d = Some (VInt 0)
        /\ dict_get "sell_count" d = Some (VInt 0)
        /\ dict_get "hold_count" d
           = Some (VInt (len (active_strategies defaults_manager)))).
Proof.
  apply (X13_short_history_is_hold demo_clock defaults_manager).
  - exact defaults_manager_reachable.
  - discriminate.
  - intros n s Hn Hs.
    change (active_strategies defaults_manager)
      with ["MA Crossover"; "RSI Strategy"; "Volatility Breakout"] in Hn.
    repeat (apply elem_of_cons in Hn as [-> | Hn]);
      [| | |by apply elem_of_nil in Hn];
      vm_compute in Hs; injection Hs as <-; by vm_compute.
Defined.

Lemma X19_witness :
  exists sig s',
    analyze "t" (VolatilityBreakout 2 (3 # 2)%Q None)
      (sequences_of built_market_data) = Ok (sig, s')
    /\ three_kinds sig.
Proof.
  apply (X19_breakout_on_built_market_data [("prices", [3; 1; 2; 5]%Q)] []
           "solana" "usd" "t" 2 (3 # 2)%Q None built_market_data).
  - vm_compute. reflexivity.
  - vm_compute. reflexivity.
  - vm_compute. discriminate.
Defined.
